(** * Verification requests: the Verifying concept and its routes

    A shallow embedding of [server/concepts/verifying.ts] and of the
    verification routes of [server/routes.ts].

    The concept keeps one collection of documents and every method is a
    short sequence of calls on it.  Methods are embedded as computations
    in a state-and-exception monad over the collection: a JavaScript
    [throw] is an error result that keeps the collection as it was at the
    point of the throw, [await] is sequencing.  Each route handler runs to
    completion before the next one starts. *)

From Stdlib Require Import String Ascii List Bool Arith Lia.
Import ListNotations.
Open Scope list_scope.
Open Scope string_scope.

(** ** Documents *)

(** MongoDB's [ObjectId].  Only equality and freshness of identifiers are
    used by the code. *)
Definition ObjectId := nat.

(** [status: "pending" | "approved" | "rejected"] *)
Inductive Status : Type :=
| pending
| approved
| rejected.

Definition Status_eqb (a b : Status) : bool :=
  match a, b with
  | pending, pending | approved, approved | rejected, rejected => true
  | _, _ => false
  end.

(** The string a status is in JavaScript. *)
Definition Status_str (s : Status) : string :=
  match s with
  | pending => "pending"
  | approved => "approved"
  | rejected => "rejected"
  end.

(** [VerificationRequestDoc]: the three fields the concept declares and
    the identifier every stored document carries.  The two dates the
    store stamps on a document are wall-clock readings; no method of the
    concept reads them and they are left out. *)
Record VerificationRequestDoc : Type := mkDoc {
  _id : ObjectId;
  username : string;
  credentials : string;
  status : Status
}.

(** ** Errors *)

(** The error classes the concept throws, each with its message, and the
    error of the session concept when nobody is logged in. *)
Inductive Error : Type :=
| BadValuesError (msg : string)
| NotAllowedError (msg : string)
| NotFoundError (msg : string)
| UnauthenticatedError (msg : string).

(** ** The document collection *)

Module DocCollection.

(** Modelled from the spec: [framework/doc.ts] is not among the sources.
    The spec's record store offers [create(record) -> id],
    [readOne(filter) -> record | absent], a single-document
    [partialUpdate(filter, patch)] and [delete(filter)]; identifiers are
    unique and never reused.  Documents are kept in insertion order and
    the one-document operations act on the first match. *)
Record t : Type := mk {
  docs : list VerificationRequestDoc;
  nextId : ObjectId
}.

Definition empty : t := {| docs := []; nextId := 0 |}.

Definition Filter := VerificationRequestDoc -> bool.

(** Modelled from the spec: [create(record) -> id]. *)
Definition createOne (u c : string) (s : Status) (col : t) : ObjectId * t :=
  (nextId col,
   {| docs := (docs col ++ [mkDoc (nextId col) u c s])%list;
      nextId := S (nextId col) |}).

(** Modelled from the spec: [readOne(filter) -> record | absent]. *)
Definition readOne (f : Filter) (col : t) : option VerificationRequestDoc :=
  find f (docs col).

Fixpoint updateFirst (f : Filter)
    (patch : VerificationRequestDoc -> VerificationRequestDoc)
    (l : list VerificationRequestDoc) : list VerificationRequestDoc :=
  match l with
  | [] => []
  | d :: l' => if f d then patch d :: l' else d :: updateFirst f patch l'
  end.

(** Modelled from the spec: [partialUpdate(filter, patch) -> void], a
    single-document update. *)
Definition partialUpdateOne (f : Filter)
    (patch : VerificationRequestDoc -> VerificationRequestDoc)
    (col : t) : t :=
  {| docs := updateFirst f patch (docs col); nextId := nextId col |}.

Fixpoint removeFirst (f : Filter) (l : list VerificationRequestDoc)
    : list VerificationRequestDoc :=
  match l with
  | [] => []
  | d :: l' => if f d then l' else d :: removeFirst f l'
  end.

(** Modelled from the spec: [delete(filter) -> void]. *)
Definition deleteOne (f : Filter) (col : t) : t :=
  {| docs := removeFirst f (docs col); nextId := nextId col |}.

End DocCollection.

Definition Collection : Type := DocCollection.t.

(** The filter [{ username }]. *)
Definition by_username (u : string) : DocCollection.Filter :=
  fun d => String.eqb (username d) u.

(** The filter [{ _id }]. *)
Definition by_id (i : ObjectId) : DocCollection.Filter :=
  fun d => Nat.eqb (_id d) i.

(** The patch [{ status: s }]. *)
Definition set_status (s : Status) (d : VerificationRequestDoc)
    : VerificationRequestDoc :=
  {| _id := _id d; username := username d; credentials := credentials d;
     status := s |}.

(** ** The monad of concept methods *)

Definition M (A : Type) : Type := Collection -> (Error + A) * Collection.

Definition ret {A} (a : A) : M A := fun col => (inr a, col).

Definition throw {A} (e : Error) : M A := fun col => (inl e, col).

Definition bind {A B} (m : M A) (k : A -> M B) : M B :=
  fun col =>
    match m col with
    | (inl e, col') => (inl e, col')
    | (inr a, col') => k a col'
    end.

Declare Scope verif_scope.
Delimit Scope verif_scope with verif.
Notation "x <- m ;; k" := (bind m (fun x => k))
  (at level 61, m at next level, right associativity) : verif_scope.
Notation "m ;; k" := (bind m (fun _ => k))
  (at level 61, right associativity) : verif_scope.
Open Scope verif_scope.

(** The collection's operations, lifted. *)
Definition createOne (u c : string) (s : Status) : M ObjectId :=
  fun col => let (i, col') := DocCollection.createOne u c s col in (inr i, col').

Definition readOne (f : DocCollection.Filter) : M (option VerificationRequestDoc) :=
  fun col => (inr (DocCollection.readOne f col), col).

Definition partialUpdateOne (f : DocCollection.Filter)
    (patch : VerificationRequestDoc -> VerificationRequestDoc) : M unit :=
  fun col => (inr tt, DocCollection.partialUpdateOne f patch col).

Definition deleteOne (f : DocCollection.Filter) : M unit :=
  fun col => (inr tt, DocCollection.deleteOne f col).

(** ** JavaScript truthiness *)

(** A string is falsy exactly when it is empty. *)
Definition truthy (s : string) : bool := negb (String.eqb s "").

(** An optional string ([reason?: string]) is falsy when it is left out
    or empty. *)
Definition truthy_opt (s : option string) : bool :=
  match s with
  | None => false
  | Some r => truthy r
  end.

(** A document is an object, and objects are truthy. *)
Definition truthy_doc (d : VerificationRequestDoc) : bool := true.

(** ** [VerifyingConcept] *)

Module Verifying.

(** [{ msg, request }], the result of a creation. *)
Record Created : Type := mkCreated {
  created_msg : string;
  created_request : option VerificationRequestDoc
}.

Definition assertValidRequest (u c : string) : M unit :=
  if negb (truthy u) || negb (truthy c) then
    throw (BadValuesError "User ID and credentials must be non-empty!")
  else
    found <- readOne (by_username u) ;;
    match found with
    | Some _ =>
        throw (NotAllowedError
                 ("User with ID " ++ u ++ " already has a pending request!"))
    | None => ret tt
    end.

Definition createVerificationRequest (u c : string) : M Created :=
  assertValidRequest u c ;;
  _ <- createOne u c pending ;;
  request <- readOne (by_username u) ;;
  ret (mkCreated "Verification request created successfully!" request).

Definition getRequestByUser (u : string) : M VerificationRequestDoc :=
  request <- readOne (by_username u) ;;
  match request with
  | None => throw (NotFoundError "Verification request not found!")
  | Some d => ret d
  end.

Definition approveRequest (u : string) : M string :=
  request <- readOne (by_username u) ;;
  match request with
  | None => throw (NotFoundError "Verification request not found.")
  | Some _ =>
      partialUpdateOne (by_username u) (set_status approved) ;;
      ret "Verification request approved successfully!"
  end.

Definition rejectRequest (u : string) (reason : option string) : M string :=
  request <- readOne (by_username u) ;;
  match request with
  | None => throw (NotFoundError "Verification request not found.")
  | Some _ =>
      partialUpdateOne (by_username u) (set_status rejected) ;;
      ret ("Verification request rejected. " ++
           (if truthy_opt reason
            then "Reason: " ++ match reason with Some r => r | None => "" end
            else ""))
  end.

Definition deleteRequest (u : string) : M string :=
  deleteOne (by_username u) ;;
  ret "Verification request deleted!".

End Verifying.

(** ** The verification routes of [routes.ts] *)

(** What a route handler returns: [{ error }], [{ status }] or [{ msg }]. *)
Inductive Response : Type :=
| RespError (error : string)
| RespStatus (status : string)
| RespMsg (msg : string).

(** A result of another concept, which does not touch the collection. *)
Definition lift {A} (r : Error + A) : M A := fun col => (r, col).

Section Routes.

(** The session and user concepts are not among the sources; the routes
    use them through these two calls only. *)
Variable SessionDoc : Type.
(** [Sessioning.getUser(session)]: the logged-in user, or a throw. *)
Variable getUser : SessionDoc -> Error + ObjectId.
(** [Authing.isAdmin(user)] *)
Variable isAdmin : ObjectId -> Error + bool.

Definition getVerificationStatus (session : SessionDoc) (u : string)
    : M Response :=
  request <- Verifying.getRequestByUser u ;;
  if negb (truthy_doc request) then
    ret (RespStatus "No verification request found.")
  else
    ret (RespStatus (Status_str (status request))).

Definition approveVerificationRequest (session : SessionDoc)
    (requester : string) : M Response :=
  verificationRequest <- Verifying.getRequestByUser requester ;;
  user <- lift (getUser session) ;;
  adminStatus <- lift (isAdmin user) ;;
  if negb adminStatus then
    ret (RespError "You do not have permission to approve requests.")
  else
    result <- Verifying.approveRequest requester ;;
    ret (RespMsg result).

Definition rejectVerificationRequest (session : SessionDoc)
    (requester : string) : M Response :=
  verificationRequest <- Verifying.getRequestByUser requester ;;
  user <- lift (getUser session) ;;
  adminStatus <- lift (isAdmin user) ;;
  if negb adminStatus then
    ret (RespError "You do not have permission to reject requests.")
  else
    result <- Verifying.rejectRequest requester None ;;
    ret (RespMsg result).

End Routes.

(** ** Sequences of concept calls *)

(** One call of a method that writes to the collection. *)
Inductive Op : Type :=
| OpCreate (u c : string)
| OpApprove (u : string)
| OpReject (u : string) (reason : option string)
| OpDelete (u : string).

(** The collection after one call, whether it returned or threw. *)
Definition exec (op : Op) (col : Collection) : Collection :=
  match op with
  | OpCreate u c => snd (Verifying.createVerificationRequest u c col)
  | OpApprove u => snd (Verifying.approveRequest u col)
  | OpReject u reason => snd (Verifying.rejectRequest u reason col)
  | OpDelete u => snd (Verifying.deleteRequest u col)
  end.

(** The collection after a sequence of calls, one at a time. *)
Definition run (ops : list Op) (col : Collection) : Collection :=
  fold_left (fun c op => exec op c) ops col.

(** The documents of [u] that are pending. *)
Definition pendingOf (u : string) (col : Collection)
    : list VerificationRequestDoc :=
  filter (fun d => by_username u d && Status_eqb (status d) pending)
         (DocCollection.docs col).

(** The status of the document with identifier [i], if it is stored. *)
Definition statusOf (i : ObjectId) (col : Collection) : option Status :=
  option_map status (DocCollection.readOne (by_id i) col).

(** The transitions of the status state machine as the specification
    draws it: out of pending only, into approved or rejected. *)
Definition transition (s s' : Status) : Prop :=
  s = pending /\ (s' = approved \/ s' = rejected).

(** The document a creation stores in [col]. *)
Definition newDoc (col : Collection) (u c : string) : VerificationRequestDoc :=
  mkDoc (DocCollection.nextId col) u c pending.

(** [needle] occurs in [s]. *)
Definition contains (s needle : string) : Prop :=
  exists pre post, s = pre ++ needle ++ post.

(** ** The invariant of the collection *)

(** No two documents share a user name or an identifier, and every
    identifier in use is below the next one to be handed out. *)
Record Inv (col : Collection) : Prop := mkInv {
  inv_usernames : NoDup (map username (DocCollection.docs col));
  inv_ids : NoDup (map _id (DocCollection.docs col));
  inv_fresh : Forall (fun d => _id d < DocCollection.nextId col)
                     (DocCollection.docs col)
}.

(** ** The other verification routes of [routes.ts] *)

(** What the submit route returns: [{ error }], or the concept's
    [{ msg, request }]. *)
Inductive CreateResponse : Type :=
| CreateError (error : string)
| CreateOk (verificationRequest : Verifying.Created).

Section OwnRoutes.

Variable SessionDoc : Type.
(** [Sessioning.getUser(session)] *)
Variable getUser : SessionDoc -> Error + ObjectId.
(** [Authing.idsToUsernames(ids)] *)
Variable idsToUsernames : list ObjectId -> Error + list string.

(** [username[0]] is [undefined] on an empty array.  [undefined] is falsy,
    and [assertValidRequest] throws on a falsy user name before anything
    else reads it. *)
Definition createVerificationRequest (session : SessionDoc)
    (creds : string) : M CreateResponse :=
  user <- lift (getUser session) ;;
  names <- lift (idsToUsernames [user]) ;;
  if negb (truthy creds) then
    ret (CreateError "Missing credentials.")
  else
    match nth_error names 0 with
    | Some u =>
        verificationRequest <- Verifying.createVerificationRequest u creds ;;
        ret (CreateOk verificationRequest)
    | None =>
        throw (BadValuesError "User ID and credentials must be non-empty!")
    end.

(** With [username[0]] undefined the filter [{ username: undefined }]
    matches no document, every stored one having a user name. *)
Definition viewRequests (session : SessionDoc) : M VerificationRequestDoc :=
  user <- lift (getUser session) ;;
  names <- lift (idsToUsernames [user]) ;;
  match nth_error names 0 with
  | Some u => Verifying.getRequestByUser u
  | None => throw (NotFoundError "Verification request not found!")
  end.

End OwnRoutes.

(** ** Observations used in the statements *)

(** The user name a call is about. *)
Definition subject (op : Op) : string :=
  match op with
  | OpCreate u _ | OpApprove u | OpReject u _ | OpDelete u => u
  end.

(** Whether a call is a [deleteRequest] of [u]. *)
Definition deletes (u : string) (op : Op) : bool :=
  match op with
  | OpDelete u' => String.eqb u' u
  | _ => false
  end.

(** The documents of [u], whatever their status. *)
Definition requestsOf (u : string) (col : Collection)
    : list VerificationRequestDoc :=
  filter (by_username u) (DocCollection.docs col).

(** A document's fields other than its status. *)
Definition same_request (d d' : VerificationRequestDoc) : Prop :=
  _id d' = _id d /\ username d' = username d /\ credentials d' = credentials d.

(** The error a call throws on [col], if it throws. *)
Definition thrown (op : Op) (col : Collection) : option Error :=
  let err {A} (r : (Error + A) * Collection) : option Error :=
    match fst r with inl e => Some e | inr _ => None end in
  match op with
  | OpCreate u c => err (Verifying.createVerificationRequest u c col)
  | OpApprove u => err (Verifying.approveRequest u col)
  | OpReject u reason => err (Verifying.rejectRequest u reason col)
  | OpDelete u => err (Verifying.deleteRequest u col)
  end.

(** ** The variant of the concept keyed by user identifier *)

(** [src/unnamed/part_000]: the same class with [userId: ObjectId] in
    place of [username], requests created and looked up by user
    identifier and settled and deleted by document identifier. *)
Module VerifyingById.

Record VerificationRequestDoc : Type := mkDoc {
  _id : ObjectId;
  userId : ObjectId;
  credentials : string;
  status : Status
}.

(** Modelled from the spec: the record store of [framework/doc.ts], as
    [DocCollection] above, over this variant's documents. *)
Record Collection : Type := mkCollection {
  docs : list VerificationRequestDoc;
  nextId : ObjectId
}.

Definition empty : Collection := {| docs := []; nextId := 0 |}.

Definition Filter := VerificationRequestDoc -> bool.

(** The filter [{ _id }]. *)
Definition by_id (i : ObjectId) : Filter := fun d => Nat.eqb (_id d) i.

(** The filter [{ userId }]. *)
Definition by_userId (w : ObjectId) : Filter := fun d => Nat.eqb (userId d) w.

(** The patch [{ status: s }]. *)
Definition set_status (s : Status) (d : VerificationRequestDoc)
    : VerificationRequestDoc :=
  {| _id := _id d; userId := userId d; credentials := credentials d;
     status := s |}.

Fixpoint updateFirst (f : Filter)
    (patch : VerificationRequestDoc -> VerificationRequestDoc)
    (l : list VerificationRequestDoc) : list VerificationRequestDoc :=
  match l with
  | [] => []
  | d :: l' => if f d then patch d :: l' else d :: updateFirst f patch l'
  end.

Fixpoint removeFirst (f : Filter) (l : list VerificationRequestDoc)
    : list VerificationRequestDoc :=
  match l with
  | [] => []
  | d :: l' => if f d then l' else d :: removeFirst f l'
  end.

Definition M (A : Type) : Type := Collection -> (Error + A) * Collection.

Definition ret {A} (a : A) : M A := fun col => (inr a, col).

Definition throw {A} (e : Error) : M A := fun col => (inl e, col).

Definition bind {A B} (m : M A) (k : A -> M B) : M B :=
  fun col =>
    match m col with
    | (inl e, col') => (inl e, col')
    | (inr a, col') => k a col'
    end.

Declare Scope byid_scope.
Delimit Scope byid_scope with byid.
Notation "x <- m ;; k" := (bind m (fun x => k))
  (at level 61, m at next level, right associativity) : byid_scope.
Notation "m ;; k" := (bind m (fun _ => k))
  (at level 61, right associativity) : byid_scope.
Local Open Scope byid_scope.

(** Modelled from the spec: [create(record) -> id]. *)
Definition createOne (w : ObjectId) (c : string) (s : Status) : M ObjectId :=
  fun col =>
    (inr (nextId col),
     {| docs := (docs col ++ [mkDoc (nextId col) w c s])%list;
        nextId := S (nextId col) |}).

(** Modelled from the spec: [readOne(filter) -> record | absent]. *)
Definition readOne (f : Filter) : M (option VerificationRequestDoc) :=
  fun col => (inr (find f (docs col)), col).

(** Modelled from the spec: [partialUpdate(filter, patch) -> void]. *)
Definition partialUpdateOne (f : Filter)
    (patch : VerificationRequestDoc -> VerificationRequestDoc) : M unit :=
  fun col =>
    (inr tt, {| docs := updateFirst f patch (docs col); nextId := nextId col |}).

(** Modelled from the spec: [delete(filter) -> void]. *)
Definition deleteOne (f : Filter) : M unit :=
  fun col =>
    (inr tt, {| docs := removeFirst f (docs col); nextId := nextId col |}).

(** An [ObjectId] is an object, and objects are truthy. *)
Definition truthy_id (w : ObjectId) : bool := true.

(** [{ msg, request }], the result of a creation. *)
Record Created : Type := mkCreated {
  created_msg : string;
  created_request : option VerificationRequestDoc
}.

Section Methods.

(** [ObjectId.prototype.toString], which the template literal of the
    error message calls. *)
Variable toString : ObjectId -> string.

Definition assertValidRequest (w : ObjectId) (c : string) : M unit :=
  if negb (truthy_id w) || negb (truthy c) then
    throw (BadValuesError "User ID and credentials must be non-empty!")
  else
    found <- readOne (by_userId w) ;;
    match found with
    | Some _ =>
        throw (NotAllowedError
                 ("User with ID " ++ toString w ++
                  " already has a pending request!"))
    | None => ret tt
    end.

Definition createVerificationRequest (w : ObjectId) (c : string) : M Created :=
  assertValidRequest w c ;;
  i <- createOne w c pending ;;
  request <- readOne (by_id i) ;;
  ret (mkCreated "Verification request created successfully!" request).

Definition getRequestById (i : ObjectId) : M VerificationRequestDoc :=
  request <- readOne (by_id i) ;;
  match request with
  | None => throw (NotFoundError "Verification request not found!")
  | Some d => ret d
  end.

Definition getRequestByUserId (w : ObjectId) : M VerificationRequestDoc :=
  request <- readOne (by_userId w) ;;
  match request with
  | None => throw (NotFoundError "Verification request not found!")
  | Some d => ret d
  end.

Definition approveRequest (i : ObjectId) : M string :=
  request <- readOne (by_id i) ;;
  match request with
  | None => throw (NotFoundError "Verification request not found.")
  | Some _ =>
      partialUpdateOne (by_id i) (set_status approved) ;;
      ret "Verification request approved successfully!"
  end.

Definition rejectRequest (i : ObjectId) (reason : option string) : M string :=
  request <- readOne (by_id i) ;;
  match request with
  | None => throw (NotFoundError "Verification request not found.")
  | Some _ =>
      partialUpdateOne (by_id i) (set_status rejected) ;;
      ret ("Verification request rejected. " ++
           (if truthy_opt reason
            then "Reason: " ++ match reason with Some r => r | None => "" end
            else ""))
  end.

Definition deleteRequest (i : ObjectId) : M string :=
  deleteOne (by_id i) ;;
  ret "Verification request deleted!".

(** One call of a method that writes to the collection. *)
Inductive Op : Type :=
| OpCreate (w : ObjectId) (c : string)
| OpApprove (i : ObjectId)
| OpReject (i : ObjectId) (reason : option string)
| OpDelete (i : ObjectId).

(** The collection after one call, whether it returned or threw. *)
Definition exec (op : Op) (col : Collection) : Collection :=
  match op with
  | OpCreate w c => snd (createVerificationRequest w c col)
  | OpApprove i => snd (approveRequest i col)
  | OpReject i reason => snd (rejectRequest i reason col)
  | OpDelete i => snd (deleteRequest i col)
  end.

(** The collection after a sequence of calls, one at a time. *)
Definition run (ops : list Op) (col : Collection) : Collection :=
  fold_left (fun c op => exec op c) ops col.

End Methods.

(** The document a creation stores in [col]. *)
Definition newDoc (col : Collection) (w : ObjectId) (c : string)
    : VerificationRequestDoc :=
  mkDoc (nextId col) w c pending.

(** No two documents share a user or an identifier, and every identifier
    in use is below the next one to be handed out. *)
Record Inv (col : Collection) : Prop := mkInv {
  inv_users : NoDup (map userId (docs col));
  inv_ids : NoDup (map _id (docs col));
  inv_fresh : Forall (fun d => _id d < nextId col) (docs col)
}.

End VerifyingById.

(** * Properties *)

(** ** Running a method *)

Lemma bind_inr A B (m : M A) (k : A -> M B) col a col' :
  m col = (inr a, col') -> bind m k col = k a col'.
Proof. intros H. unfold bind. rewrite H. reflexivity. Qed.

Lemma bind_inl A B (m : M A) (k : A -> M B) col e col' :
  m col = (inl e, col') -> bind m k col = (inl e, col').
Proof. intros H. unfold bind. rewrite H. reflexivity. Qed.

Lemma truthy_nonempty s : truthy s = true <-> s <> "".
Proof.
  unfold truthy. destruct (String.eqb_spec s ""); simpl; split; congruence.
Qed.

(** ** The collection's one-document operations *)

Section FirstMatch.

Import DocCollection.

Variable f : Filter.

Lemma find_username_none u l :
  find (by_username u) l = None <-> ~ In u (map username l).
Proof.
  induction l as [|d l IH]; simpl.
  - tauto.
  - unfold by_username at 1. destruct (String.eqb_spec (username d) u).
    + split; [discriminate | tauto].
    + rewrite IH. tauto.
Qed.

Lemma find_username_some u l d :
  find (by_username u) l = Some d -> In d l /\ username d = u.
Proof.
  intros H. apply find_some in H. destruct H as [Hin Hu].
  split; [assumption | now apply String.eqb_eq].
Qed.

Lemma updateFirst_usernames s l :
  map username (updateFirst f (set_status s) l) = map username l.
Proof.
  induction l as [|d l IH]; simpl; [reflexivity|].
  destruct (f d); simpl; [reflexivity | now rewrite IH].
Qed.

Lemma updateFirst_ids s l :
  map _id (updateFirst f (set_status s) l) = map _id l.
Proof.
  induction l as [|d l IH]; simpl; [reflexivity|].
  destruct (f d); simpl; [reflexivity | now rewrite IH].
Qed.

Lemma updateFirst_no_match patch l :
  find f l = None -> updateFirst f patch l = l.
Proof.
  induction l as [|d l IH]; simpl; [reflexivity|].
  destruct (f d); [discriminate | intros H; now rewrite IH].
Qed.

Lemma removeFirst_In d l : In d (removeFirst f l) -> In d l.
Proof.
  induction l as [|x l IH]; simpl; [tauto|].
  destruct (f x); simpl; tauto.
Qed.

Lemma removeFirst_map_In A (g : VerificationRequestDoc -> A) a l :
  In a (map g (removeFirst f l)) -> In a (map g l).
Proof.
  rewrite !in_map_iff. intros [d [Hd Hin]]. exists d.
  split; [assumption | now apply removeFirst_In].
Qed.

Lemma removeFirst_NoDup A (g : VerificationRequestDoc -> A) l :
  NoDup (map g l) -> NoDup (map g (removeFirst f l)).
Proof.
  induction l as [|x l IH]; simpl; [trivial|].
  intros H. inversion H as [|? ? Hnotin Hnd]; subst.
  destruct (f x); simpl; [assumption|].
  constructor; [| now apply IH].
  intros Hin. apply Hnotin. now apply removeFirst_map_In in Hin.
Qed.

Lemma removeFirst_no_match l :
  find f l = None -> removeFirst f l = l.
Proof.
  induction l as [|d l IH]; simpl; [reflexivity|].
  destruct (f d); [discriminate | intros H; now rewrite IH].
Qed.

End FirstMatch.

(** ** What each method does to the collection *)

Section Effects.

Variable col : Collection.

Lemma getRequestByUser_found u d :
  find (by_username u) (DocCollection.docs col) = Some d ->
  Verifying.getRequestByUser u col = (inr d, col).
Proof.
  intros H. unfold Verifying.getRequestByUser, bind, readOne, DocCollection.readOne.
  rewrite H. reflexivity.
Qed.

Lemma getRequestByUser_missing u :
  find (by_username u) (DocCollection.docs col) = None ->
  Verifying.getRequestByUser u col =
  (inl (NotFoundError "Verification request not found!"), col).
Proof.
  intros H. unfold Verifying.getRequestByUser, bind, readOne, DocCollection.readOne.
  rewrite H. reflexivity.
Qed.

Lemma approveRequest_found u d :
  find (by_username u) (DocCollection.docs col) = Some d ->
  Verifying.approveRequest u col =
  (inr "Verification request approved successfully!",
   DocCollection.partialUpdateOne (by_username u) (set_status approved) col).
Proof.
  intros H. unfold Verifying.approveRequest, bind, readOne, DocCollection.readOne.
  rewrite H. reflexivity.
Qed.

Lemma approveRequest_missing u :
  find (by_username u) (DocCollection.docs col) = None ->
  Verifying.approveRequest u col =
  (inl (NotFoundError "Verification request not found."), col).
Proof.
  intros H. unfold Verifying.approveRequest, bind, readOne, DocCollection.readOne.
  rewrite H. reflexivity.
Qed.

Lemma rejectRequest_found u reason d :
  find (by_username u) (DocCollection.docs col) = Some d ->
  Verifying.rejectRequest u reason col =
  (inr ("Verification request rejected. " ++
        (if truthy_opt reason
         then "Reason: " ++ match reason with Some r => r | None => "" end
         else "")),
   DocCollection.partialUpdateOne (by_username u) (set_status rejected) col).
Proof.
  intros H. unfold Verifying.rejectRequest, bind, readOne, DocCollection.readOne.
  rewrite H. reflexivity.
Qed.

Lemma rejectRequest_missing u reason :
  find (by_username u) (DocCollection.docs col) = None ->
  Verifying.rejectRequest u reason col =
  (inl (NotFoundError "Verification request not found."), col).
Proof.
  intros H. unfold Verifying.rejectRequest, bind, readOne, DocCollection.readOne.
  rewrite H. reflexivity.
Qed.

Lemma assertValidRequest_bad u c :
  u = "" \/ c = "" ->
  Verifying.assertValidRequest u c col =
  (inl (BadValuesError "User ID and credentials must be non-empty!"), col).
Proof.
  intros H. unfold Verifying.assertValidRequest.
  assert (E : negb (truthy u) || negb (truthy c) = true).
  { destruct H as [-> | ->]; unfold truthy; simpl;
      [reflexivity | apply orb_true_r]. }
  rewrite E. reflexivity.
Qed.

Lemma assertValidRequest_taken u c d :
  u <> "" -> c <> "" ->
  find (by_username u) (DocCollection.docs col) = Some d ->
  Verifying.assertValidRequest u c col =
  (inl (NotAllowedError
          ("User with ID " ++ u ++ " already has a pending request!")), col).
Proof.
  intros Hu Hc H. unfold Verifying.assertValidRequest.
  apply truthy_nonempty in Hu, Hc. rewrite Hu, Hc. simpl.
  unfold bind, readOne, DocCollection.readOne. rewrite H. reflexivity.
Qed.

Lemma assertValidRequest_free u c :
  u <> "" -> c <> "" ->
  find (by_username u) (DocCollection.docs col) = None ->
  Verifying.assertValidRequest u c col = (inr tt, col).
Proof.
  intros Hu Hc H. unfold Verifying.assertValidRequest.
  apply truthy_nonempty in Hu, Hc. rewrite Hu, Hc. simpl.
  unfold bind, readOne, DocCollection.readOne. rewrite H. reflexivity.
Qed.

End Effects.

Section Creation.

Variable col : Collection.

Lemma find_app (f : DocCollection.Filter) l1 l2 :
  find f (l1 ++ l2)%list =
  match find f l1 with Some d => Some d | None => find f l2 end.
Proof.
  induction l1 as [|d l1 IH]; simpl; [reflexivity|].
  now destruct (f d).
Qed.

Lemma find_app_new u c :
  find (by_username u) (DocCollection.docs col) = None ->
  find (by_username u) (DocCollection.docs col ++ [newDoc col u c])%list =
  Some (newDoc col u c).
Proof.
  intros H. rewrite find_app, H. simpl.
  unfold by_username. simpl. now rewrite String.eqb_refl.
Qed.

Lemma createVerificationRequest_free u c :
  u <> "" -> c <> "" ->
  find (by_username u) (DocCollection.docs col) = None ->
  Verifying.createVerificationRequest u c col =
  (inr (Verifying.mkCreated "Verification request created successfully!"
          (Some (newDoc col u c))),
   snd (DocCollection.createOne u c pending col)).
Proof.
  intros Hu Hc H. unfold Verifying.createVerificationRequest.
  rewrite (bind_inr _ _ _ _ _ _ _ (assertValidRequest_free col u c Hu Hc H)).
  unfold bind, createOne, readOne, DocCollection.readOne. simpl.
  fold (newDoc col u c). rewrite (find_app_new u c H). reflexivity.
Qed.

Lemma createVerificationRequest_taken u c d :
  u <> "" -> c <> "" ->
  find (by_username u) (DocCollection.docs col) = Some d ->
  Verifying.createVerificationRequest u c col =
  (inl (NotAllowedError
          ("User with ID " ++ u ++ " already has a pending request!")), col).
Proof.
  intros Hu Hc H. unfold Verifying.createVerificationRequest.
  now rewrite (bind_inl _ _ _ _ _ _ _ (assertValidRequest_taken col u c d Hu Hc H)).
Qed.

Lemma createVerificationRequest_bad u c :
  u = "" \/ c = "" ->
  Verifying.createVerificationRequest u c col =
  (inl (BadValuesError "User ID and credentials must be non-empty!"), col).
Proof.
  intros H. unfold Verifying.createVerificationRequest.
  now rewrite (bind_inl _ _ _ _ _ _ _ (assertValidRequest_bad col u c H)).
Qed.

(** A creation either leaves the collection alone or appends the new
    document, and the latter only for a user who has none. *)
Lemma exec_create u c :
  exec (OpCreate u c) col = col \/
  (find (by_username u) (DocCollection.docs col) = None /\
   exec (OpCreate u c) col = snd (DocCollection.createOne u c pending col)).
Proof.
  simpl.
  destruct (String.eqb_spec u "") as [Hu|Hu].
  { left. rewrite createVerificationRequest_bad; auto. }
  destruct (String.eqb_spec c "") as [Hc|Hc].
  { left. rewrite createVerificationRequest_bad; auto. }
  destruct (find (by_username u) (DocCollection.docs col)) as [d|] eqn:H.
  - left. now rewrite (createVerificationRequest_taken u c d Hu Hc H).
  - right. split; [reflexivity|].
    now rewrite (createVerificationRequest_free u c Hu Hc H).
Qed.

Lemma exec_approve u :
  exec (OpApprove u) col =
  DocCollection.partialUpdateOne (by_username u) (set_status approved) col.
Proof.
  simpl. destruct (find (by_username u) (DocCollection.docs col)) as [d|] eqn:H.
  - now rewrite (approveRequest_found col u d H).
  - rewrite (approveRequest_missing col u H). simpl.
    unfold DocCollection.partialUpdateOne.
    rewrite updateFirst_no_match by assumption. now destruct col.
Qed.

Lemma exec_reject u reason :
  exec (OpReject u reason) col =
  DocCollection.partialUpdateOne (by_username u) (set_status rejected) col.
Proof.
  simpl. destruct (find (by_username u) (DocCollection.docs col)) as [d|] eqn:H.
  - now rewrite (rejectRequest_found col u reason d H).
  - rewrite (rejectRequest_missing col u reason H). simpl.
    unfold DocCollection.partialUpdateOne.
    rewrite updateFirst_no_match by assumption. now destruct col.
Qed.

Lemma exec_delete u :
  exec (OpDelete u) col = DocCollection.deleteOne (by_username u) col.
Proof. reflexivity. Qed.

End Creation.

(** ** The invariant is kept *)

Lemma Inv_empty : Inv DocCollection.empty.
Proof. split; simpl; constructor. Qed.

Lemma NoDup_snoc A (l : list A) a :
  NoDup l -> ~ In a l -> NoDup (l ++ [a])%list.
Proof.
  intros Hl Ha. induction Hl as [|x l Hx Hl IH]; simpl.
  - constructor; [tauto | constructor].
  - constructor.
    + rewrite in_app_iff. simpl. intros [H | [H | []]]; [tauto|].
      subst. apply Ha. now left.
    + apply IH. intros H. apply Ha. now right.
Qed.

Lemma Inv_exec op col : Inv col -> Inv (exec op col).
Proof.
  intros [Hu Hi Hf]. destruct op as [u c | u | u reason | u].
  - destruct (exec_create col u c) as [-> | [Hnone ->]]; [now split|].
    split; simpl.
    + rewrite map_app. simpl. apply NoDup_snoc; [assumption|].
      now apply find_username_none.
    + rewrite map_app. simpl. apply NoDup_snoc; [assumption|].
      intros Hin. apply in_map_iff in Hin. destruct Hin as [d [Hd Hin]].
      rewrite Forall_forall in Hf. specialize (Hf d Hin). lia.
    + apply Forall_app. split.
      * eapply Forall_impl; [|exact Hf]. simpl. intros; lia.
      * constructor; [simpl; lia | constructor].
  - rewrite exec_approve. split; simpl.
    + now rewrite updateFirst_usernames.
    + now rewrite updateFirst_ids.
    + rewrite Forall_forall in *. intros d Hd.
      assert (Hin : In (_id d) (map _id (DocCollection.docs col))).
      { rewrite <- (updateFirst_ids (by_username u) approved). now apply in_map. }
      apply in_map_iff in Hin. destruct Hin as [d0 [<- Hin]]. now apply Hf.
  - rewrite exec_reject. split; simpl.
    + now rewrite updateFirst_usernames.
    + now rewrite updateFirst_ids.
    + rewrite Forall_forall in *. intros d Hd.
      assert (Hin : In (_id d) (map _id (DocCollection.docs col))).
      { rewrite <- (updateFirst_ids (by_username u) rejected). now apply in_map. }
      apply in_map_iff in Hin. destruct Hin as [d0 [<- Hin]]. now apply Hf.
  - rewrite exec_delete. split; simpl.
    + now apply removeFirst_NoDup.
    + now apply removeFirst_NoDup.
    + rewrite Forall_forall in *. intros d Hd. apply Hf.
      eapply removeFirst_In; eassumption.
Qed.

Lemma Inv_run ops : forall col, Inv col -> Inv (run ops col).
Proof.
  induction ops as [|op ops IH]; simpl; intros col H; [assumption|].
  apply IH. now apply Inv_exec.
Qed.

Lemma NoDup_pendingOf u col :
  NoDup (map username (DocCollection.docs col)) ->
  length (pendingOf u col) <= 1.
Proof.
  unfold pendingOf. induction (DocCollection.docs col) as [|d l IH]; simpl.
  - lia.
  - intros H. inversion H as [|? ? Hnotin Hnd]; subst.
    specialize (IH Hnd).
    destruct (by_username u d) eqn:E; simpl; [|assumption].
    destruct (Status_eqb (status d) pending); simpl; [|assumption].
    unfold by_username in E. apply String.eqb_eq in E. subst u.
    replace (filter _ l) with (@nil VerificationRequestDoc); [simpl; lia|].
    symmetry. clear - Hnotin. induction l as [|x l IHl]; simpl; [reflexivity|].
    unfold by_username at 1.
    destruct (String.eqb_spec (username x) (username d)) as [E|E]; simpl.
    + exfalso. apply Hnotin. simpl. now left.
    + apply IHl. intros H. apply Hnotin. now right.
Qed.

(** C1.  Starting from the empty collection, after any sequence of
    createVerificationRequest, approveRequest, rejectRequest and
    deleteRequest calls run one at a time, every user name has at most
    one document whose status is pending. *)
Theorem one_pending_per_subject (ops : list Op) (u : string) :
  length (pendingOf u (run ops DocCollection.empty)) <= 1.
Proof.
  apply NoDup_pendingOf. apply (Inv_run ops DocCollection.empty Inv_empty).
Qed.

(** ** Status changes *)

Section StatusOf.

Variable i : ObjectId.

Lemma statusOf_updateFirst f s l :
  match option_map status (find (by_id i) l) with
  | None =>
      option_map status
        (find (by_id i) (DocCollection.updateFirst f (set_status s) l)) = None
  | Some s0 =>
      exists s1,
        option_map status
          (find (by_id i) (DocCollection.updateFirst f (set_status s) l))
        = Some s1 /\ (s1 = s0 \/ s1 = s)
  end.
Proof.
  induction l as [|d l IH]; simpl; [reflexivity|].
  destruct (f d); simpl.
  - change (by_id i (set_status s d)) with (by_id i d).
    destruct (by_id i d); simpl.
    + exists s. auto.
    + destruct (option_map status (find (by_id i) l)) as [s0|]; [|reflexivity].
      exists s0. auto.
  - destruct (by_id i d); simpl; [|exact IH].
    exists (status d). auto.
Qed.

Lemma find_id_removeFirst f l d :
  NoDup (map _id l) ->
  find (by_id i) (DocCollection.removeFirst f l) = Some d ->
  find (by_id i) l = Some d.
Proof.
  induction l as [|x l IH]; simpl; [discriminate|].
  intros Hnd. inversion Hnd as [|? ? Hnotin Hnd']; subst.
  destruct (f x); simpl.
  - intros H. unfold by_id at 1. destruct (Nat.eqb_spec (_id x) i) as [E|E].
    + exfalso. apply Hnotin. apply find_some in H. destruct H as [Hin Hid].
      apply Nat.eqb_eq in Hid. apply in_map_iff. exists d. split; [lia|assumption].
    + assumption.
  - destruct (by_id i x); [trivial | now apply IH].
Qed.

End StatusOf.

(** C2, as the specification states it, fails: after alice's request is
    approved, rejectRequest moves the same document from approved to
    rejected, which is no transition of the state machine. *)
Lemma approved_then_rejected :
  let col := run [OpCreate "alice" "doc123"; OpApprove "alice"]
                 DocCollection.empty in
  statusOf 0 col = Some approved /\
  statusOf 0 (exec (OpReject "alice" None) col) = Some rejected /\
  ~ (rejected = approved \/ transition approved rejected).
Proof.
  split; [reflexivity|]. split; [reflexivity|].
  intros [H | [H _]]; discriminate.
Qed.

(** A bound on what one call does to the status found under an
    identifier. *)
Lemma status_step_bound (ops : list Op) (op : Op) (i : ObjectId) (s' : Status) :
  statusOf i (exec op (run ops DocCollection.empty)) = Some s' ->
  match statusOf i (run ops DocCollection.empty) with
  | None => s' = pending /\ exists u c, op = OpCreate u c
  | Some s =>
      (s' = s \/
       (s' = approved /\ exists u, op = OpApprove u) \/
       (s' = rejected /\ exists u reason, op = OpReject u reason)) /\
      (s' = pending -> s = pending)
  end.
Proof.
  pose proof (Inv_run ops DocCollection.empty Inv_empty) as HI.
  set (col := run ops DocCollection.empty) in *.
  unfold statusOf, DocCollection.readOne.
  destruct op as [u c | u | u reason | u].
  - destruct (exec_create col u c) as [-> | [_ ->]].
    + intros ->. split; [now left | trivial].
    + simpl. rewrite find_app. simpl.
      destruct (find (by_id i) (DocCollection.docs col)) as [d|]; simpl.
      * intros H. injection H as <-. split; [now left | trivial].
      * destruct (by_id i (mkDoc (DocCollection.nextId col) u c pending));
          simpl; [|discriminate].
        intros H. injection H as <-. split; [reflexivity | now exists u, c].
  - rewrite exec_approve. simpl.
    pose proof (statusOf_updateFirst i (by_username u) approved
                  (DocCollection.docs col)) as H.
    destruct (option_map status (find (by_id i) (DocCollection.docs col)))
      as [s0|].
    + destruct H as [s1 [-> Hs1]]. intros E. injection E as <-.
      destruct Hs1 as [-> | ->].
      * split; [now left | trivial].
      * split; [right; left; split; [reflexivity | now exists u] | discriminate].
    + rewrite H. discriminate.
  - rewrite exec_reject. simpl.
    pose proof (statusOf_updateFirst i (by_username u) rejected
                  (DocCollection.docs col)) as H.
    destruct (option_map status (find (by_id i) (DocCollection.docs col)))
      as [s0|].
    + destruct H as [s1 [-> Hs1]]. intros E. injection E as <-.
      destruct Hs1 as [-> | ->].
      * split; [now left | trivial].
      * split; [right; right; split; [reflexivity | now exists u, reason]
               | discriminate].
    + rewrite H. discriminate.
  - rewrite exec_delete. simpl.
    destruct (find (by_id i)
                (DocCollection.removeFirst (by_username u)
                   (DocCollection.docs col))) as [d|] eqn:E; simpl;
      [|discriminate].
    apply find_id_removeFirst in E; [|apply HI]. rewrite E. simpl.
    intros H. injection H as <-. split; [now left | trivial].
Qed.

Section StatusStep.

Variable i : ObjectId.
Variable u : string.

Lemma NoDup_map_inj A (g : VerificationRequestDoc -> A) l a b :
  NoDup (map g l) -> In a l -> In b l -> g a = g b -> a = b.
Proof.
  induction l as [|x l IH]; simpl; [tauto|].
  intros Hnd. inversion Hnd as [|? ? Hnotin Hnd']; subst.
  intros [<- | Ha] [<- | Hb] E.
  - reflexivity.
  - exfalso. apply Hnotin. rewrite E. now apply in_map.
  - exfalso. apply Hnotin. rewrite <- E. now apply in_map.
  - now apply IH.
Qed.

Lemma find_id_updateFirst_hit s l d :
  NoDup (map username l) ->
  find (by_id i) l = Some d ->
  by_username u d = true ->
  find (by_id i) (DocCollection.updateFirst (by_username u) (set_status s) l)
  = Some (set_status s d).
Proof.
  induction l as [|x l IH]; simpl; [discriminate|].
  intros Hnd. inversion Hnd as [|? ? Hnotin Hnd']; subst.
  destruct (by_username u x) eqn:Ex; simpl.
  - change (by_id i (set_status s x)) with (by_id i x).
    destruct (by_id i x); [intros E; now injection E as <-|].
    intros E Hd. exfalso. apply Hnotin.
    apply find_some in E. destruct E as [Hin _].
    unfold by_username in Ex, Hd. apply String.eqb_eq in Ex, Hd.
    rewrite Ex, <- Hd. now apply in_map.
  - destruct (by_id i x).
    + intros E Hd. injection E as <-. congruence.
    + now apply IH.
Qed.

Lemma find_id_updateFirst_miss s l d :
  find (by_id i) l = Some d ->
  by_username u d = false ->
  find (by_id i) (DocCollection.updateFirst (by_username u) (set_status s) l)
  = Some d.
Proof.
  induction l as [|x l IH]; simpl; [discriminate|].
  destruct (by_username u x) eqn:Ex; simpl.
  - change (by_id i (set_status s x)) with (by_id i x).
    destruct (by_id i x); [|trivial].
    intros E Hd. injection E as <-. congruence.
  - destruct (by_id i x); [trivial | now apply IH].
Qed.

Lemma find_id_removeFirst_hit l d :
  NoDup (map username l) ->
  NoDup (map _id l) ->
  find (by_id i) l = Some d ->
  by_username u d = true ->
  find (by_id i) (DocCollection.removeFirst (by_username u) l) = None.
Proof.
  induction l as [|x l IH]; simpl; [discriminate|].
  intros Hnu Hni.
  inversion Hnu as [|? ? Hnotu Hnu']; subst.
  inversion Hni as [|? ? Hnoti Hni']; subst.
  destruct (by_username u x) eqn:Ex.
  - destruct (by_id i x) eqn:Ei.
    + intros _ _. destruct (find (by_id i) l) as [y|] eqn:Ey; [|reflexivity].
      exfalso. apply Hnoti. apply find_some in Ey. destruct Ey as [Hin Hy].
      unfold by_id in Ei, Hy. apply Nat.eqb_eq in Ei, Hy.
      rewrite Ei, <- Hy. now apply in_map.
    + intros E Hd. exfalso. apply Hnotu.
      apply find_some in E. destruct E as [Hin _].
      unfold by_username in Ex, Hd. apply String.eqb_eq in Ex, Hd.
      rewrite Ex, <- Hd. now apply in_map.
  - simpl. destruct (by_id i x).
    + intros E Hd. injection E as <-. congruence.
    + now apply IH.
Qed.

Lemma find_id_removeFirst_miss l d :
  find (by_id i) l = Some d ->
  by_username u d = false ->
  find (by_id i) (DocCollection.removeFirst (by_username u) l) = Some d.
Proof.
  induction l as [|x l IH]; simpl; [discriminate|].
  destruct (by_username u x) eqn:Ex.
  - destruct (by_id i x); [|trivial].
    intros E Hd. injection E as <-. congruence.
  - simpl. destruct (by_id i x); [trivial | now apply IH].
Qed.

End StatusStep.

(** What one call makes of the status of a stored document. *)
Lemma status_step (col : Collection) (op : Op) (i : ObjectId)
    (d : VerificationRequestDoc) :
  Inv col ->
  DocCollection.readOne (by_id i) col = Some d ->
  statusOf i (exec op col) =
  match op with
  | OpCreate _ _ => Some (status d)
  | OpApprove u => Some (if by_username u d then approved else status d)
  | OpReject u _ => Some (if by_username u d then rejected else status d)
  | OpDelete u => if by_username u d then None else Some (status d)
  end.
Proof.
  intros [Hu Hi _]. unfold statusOf, DocCollection.readOne. intros H.
  destruct op as [u c | u | u reason | u].
  - destruct (exec_create col u c) as [-> | [_ ->]]; [now rewrite H|].
    simpl. now rewrite find_app, H.
  - rewrite exec_approve. simpl. destruct (by_username u d) eqn:E.
    + now rewrite (find_id_updateFirst_hit i u approved _ d Hu H E).
    + now rewrite (find_id_updateFirst_miss i u approved _ d H E).
  - rewrite exec_reject. simpl. destruct (by_username u d) eqn:E.
    + now rewrite (find_id_updateFirst_hit i u rejected _ d Hu H E).
    + now rewrite (find_id_updateFirst_miss i u rejected _ d H E).
  - rewrite exec_delete. simpl. destruct (by_username u d) eqn:E.
    + now rewrite (find_id_removeFirst_hit i u _ d Hu Hi H E).
    + now rewrite (find_id_removeFirst_miss i u _ d H E).
Qed.

(** C2, amended.  Over any sequence of calls from the empty collection:
    a document that a call adds is added by createVerificationRequest and
    is pending; approveRequest sets the status of its user's document to
    approved and rejectRequest sets it to rejected, whatever the status
    was, every other stored document keeps its status, and deleteRequest
    removes its user's document; so no call takes a document back to
    pending, while approved to rejected and rejected to approved do
    occur. *)
Theorem status_changes :
  (forall ops op i s',
     statusOf i (run ops DocCollection.empty) = None ->
     statusOf i (exec op (run ops DocCollection.empty)) = Some s' ->
     s' = pending /\ exists u c, op = OpCreate u c) /\
  (forall ops op i d,
     DocCollection.readOne (by_id i) (run ops DocCollection.empty) = Some d ->
     statusOf i (exec op (run ops DocCollection.empty)) =
     match op with
     | OpCreate _ _ => Some (status d)
     | OpApprove u => Some (if by_username u d then approved else status d)
     | OpReject u _ => Some (if by_username u d then rejected else status d)
     | OpDelete u => if by_username u d then None else Some (status d)
     end) /\
  (forall ops op i s,
     statusOf i (run ops DocCollection.empty) = Some s ->
     statusOf i (exec op (run ops DocCollection.empty)) = Some pending ->
     s = pending) /\
  (exists ops u reason i,
     statusOf i (run ops DocCollection.empty) = Some approved /\
     statusOf i (exec (OpReject u reason) (run ops DocCollection.empty))
     = Some rejected) /\
  (exists ops u i,
     statusOf i (run ops DocCollection.empty) = Some rejected /\
     statusOf i (exec (OpApprove u) (run ops DocCollection.empty))
     = Some approved).
Proof.
  split; [|split; [|split; [|split]]].
  - intros ops op i s' Hnone Hsome.
    pose proof (status_step_bound ops op i s' Hsome) as B.
    now rewrite Hnone in B.
  - intros ops op i d H. apply status_step; [|assumption].
    apply (Inv_run ops DocCollection.empty Inv_empty).
  - intros ops op i s Hs Hp.
    pose proof (status_step_bound ops op i pending Hp) as B.
    rewrite Hs in B. destruct B as [_ B]. now apply B.
  - exists [OpCreate "alice" "doc123"; OpApprove "alice"], "alice",
      (Some "bad doc"), 0.
    split; reflexivity.
  - exists [OpCreate "alice" "doc123"; OpReject "alice" None], "alice", 0.
    split; reflexivity.
Qed.

(** The amended C2 for alice's rejected request: approveRequest sets it
    to approved, and approving bob leaves it rejected. *)
Lemma status_changes_witness :
  let col := run [OpCreate "alice" "doc123"; OpReject "alice" None]
                 DocCollection.empty in
  statusOf 0 (exec (OpApprove "alice") col) = Some approved /\
  statusOf 0 (exec (OpApprove "bob") col) = Some rejected.
Proof.
  split.
  - apply (proj1 (proj2 status_changes)
             [OpCreate "alice" "doc123"; OpReject "alice" None]
             (OpApprove "alice") 0 (mkDoc 0 "alice" "doc123" rejected)).
    reflexivity.
  - apply (proj1 (proj2 status_changes)
             [OpCreate "alice" "doc123"; OpReject "alice" None]
             (OpApprove "bob") 0 (mkDoc 0 "alice" "doc123" rejected)).
    reflexivity.
Defined.

(** ** Reading back after a write *)

Lemma find_updateFirst_username u s l d :
  find (by_username u) l = Some d ->
  find (by_username u) (DocCollection.updateFirst (by_username u) (set_status s) l)
  = Some (set_status s d).
Proof.
  induction l as [|x l IH]; simpl; [discriminate|].
  destruct (by_username u x) eqn:E; simpl.
  - intros H. injection H as <-.
    change (by_username u (set_status s x)) with (by_username u x).
    now rewrite E.
  - rewrite E. exact IH.
Qed.

Lemma updateFirst_twice u s l :
  DocCollection.updateFirst (by_username u) (set_status s)
    (DocCollection.updateFirst (by_username u) (set_status s) l)
  = DocCollection.updateFirst (by_username u) (set_status s) l.
Proof.
  induction l as [|x l IH]; simpl; [reflexivity|].
  destruct (by_username u x) eqn:E; simpl.
  - change (by_username u (set_status s x)) with (by_username u x).
    now rewrite E.
  - now rewrite E, IH.
Qed.

Lemma append_empty_r (s : string) : s ++ "" = s.
Proof. induction s as [|a s IH]; simpl; [reflexivity | now rewrite IH]. Qed.

Lemma contains_suffix (pre s : string) : contains (pre ++ s) s.
Proof. exists pre, "". now rewrite append_empty_r. Qed.

Lemma contains_empty (s : string) : contains s "".
Proof. exists s, "". simpl. now rewrite append_empty_r. Qed.

(** ** The module's methods *)

(** C5.  For a non-empty user name and non-empty credentials,
    createVerificationRequest throws NotAllowedError exactly when the
    collection already holds a document with that user name, whatever that
    document's status. *)
Theorem create_conflict_iff (col : Collection) (u c : string) :
  u <> "" -> c <> "" ->
  ((exists msg, fst (Verifying.createVerificationRequest u c col)
                = inl (NotAllowedError msg))
   <-> (exists d, In d (DocCollection.docs col) /\ username d = u)).
Proof.
  intros Hu Hc.
  destruct (find (by_username u) (DocCollection.docs col)) as [d|] eqn:H.
  - rewrite (createVerificationRequest_taken col u c d Hu Hc H). simpl. split.
    + intros _. exists d. now apply find_username_some.
    + intros _. eexists. reflexivity.
  - rewrite (createVerificationRequest_free col u c Hu Hc H). simpl. split.
    + intros [msg Hmsg]. discriminate.
    + intros [d [Hin Hd]]. exfalso.
      apply find_username_none in H. apply H.
      apply in_map_iff. now exists d.
Qed.

(** C5 on a collection whose only document, alice's, is approved. *)
Lemma create_conflict_iff_witness :
  let col := run [OpCreate "alice" "doc123"; OpApprove "alice"]
                 DocCollection.empty in
  (exists msg, fst (Verifying.createVerificationRequest "alice" "doc456" col)
               = inl (NotAllowedError msg))
  <-> (exists d, In d (DocCollection.docs col) /\ username d = "alice").
Proof.
  apply create_conflict_iff; discriminate.
Defined.

(** C6, as the specification states it, fails: alice has no pending
    document, only an approved one, and her new request is refused. *)
Lemma create_refused_without_pending :
  let col := run [OpCreate "alice" "doc123"; OpApprove "alice"]
                 DocCollection.empty in
  pendingOf "alice" col = [] /\
  Verifying.createVerificationRequest "alice" "doc456" col =
  (inl (NotAllowedError "User with ID alice already has a pending request!"),
   col).
Proof. split; reflexivity. Qed.

(** C6, amended.  For a user name with no document at all in the
    collection, createVerificationRequest with non-empty user name and
    credentials returns the success message together with the document it
    has just stored, and getRequestByUser then returns that document,
    whose status is pending. *)
Theorem create_success (col : Collection) (u c : string) :
  u <> "" -> c <> "" ->
  find (by_username u) (DocCollection.docs col) = None ->
  exists col',
    Verifying.createVerificationRequest u c col =
    (inr (Verifying.mkCreated "Verification request created successfully!"
            (Some (newDoc col u c))), col') /\
    In (newDoc col u c) (DocCollection.docs col') /\
    ~ In (newDoc col u c) (DocCollection.docs col) /\
    Verifying.getRequestByUser u col' = (inr (newDoc col u c), col') /\
    status (newDoc col u c) = pending.
Proof.
  intros Hu Hc H. eexists.
  split; [apply (createVerificationRequest_free col u c Hu Hc H)|].
  simpl. split; [apply in_or_app; right; now left|].
  split.
  - intros Hin. apply find_username_none in H. apply H.
    apply in_map_iff. now exists (newDoc col u c).
  - split; [|reflexivity].
    apply getRequestByUser_found. simpl. apply (find_app_new col u c H).
Qed.

(** The amended C6 for bob, while alice's approved document is stored. *)
Lemma create_success_witness :
  let col := run [OpCreate "alice" "doc123"; OpApprove "alice"]
                 DocCollection.empty in
  exists col',
    Verifying.createVerificationRequest "bob" "doc456" col =
    (inr (Verifying.mkCreated "Verification request created successfully!"
            (Some (newDoc col "bob" "doc456"))), col') /\
    In (newDoc col "bob" "doc456") (DocCollection.docs col') /\
    ~ In (newDoc col "bob" "doc456") (DocCollection.docs col) /\
    Verifying.getRequestByUser "bob" col'
    = (inr (newDoc col "bob" "doc456"), col') /\
    status (newDoc col "bob" "doc456") = pending.
Proof.
  apply create_success; [discriminate | discriminate | reflexivity].
Defined.

(** C7.  For a user name that has a document, of any status,
    approveRequest returns its success message, getRequestByUser then
    returns a document whose status is approved, and a second
    approveRequest returns the same message and leaves the collection
    (every document's identifier, user name, credentials and status) as
    the first one left it. *)
Theorem approve_idempotent (col : Collection) (u : string)
    (d : VerificationRequestDoc) :
  find (by_username u) (DocCollection.docs col) = Some d ->
  exists col1,
    Verifying.approveRequest u col =
    (inr "Verification request approved successfully!", col1) /\
    Verifying.getRequestByUser u col1 = (inr (set_status approved d), col1) /\
    status (set_status approved d) = approved /\
    Verifying.approveRequest u col1 =
    (inr "Verification request approved successfully!", col1).
Proof.
  intros H. eexists.
  split; [apply (approveRequest_found col u d H)|].
  assert (H1 : find (by_username u)
                 (DocCollection.docs
                    (DocCollection.partialUpdateOne (by_username u)
                       (set_status approved) col))
               = Some (set_status approved d)).
  { simpl. now apply find_updateFirst_username. }
  split; [now apply getRequestByUser_found|].
  split; [reflexivity|].
  rewrite (approveRequest_found _ u _ H1). f_equal.
  unfold DocCollection.partialUpdateOne. simpl. now rewrite updateFirst_twice.
Qed.

(** C7 on alice's document after it has been rejected. *)
Lemma approve_idempotent_witness :
  let col := run [OpCreate "alice" "doc123"; OpReject "alice" None]
                 DocCollection.empty in
  exists col1,
    Verifying.approveRequest "alice" col =
    (inr "Verification request approved successfully!", col1) /\
    Verifying.getRequestByUser "alice" col1 =
    (inr (set_status approved (mkDoc 0 "alice" "doc123" rejected)), col1) /\
    status (set_status approved (mkDoc 0 "alice" "doc123" rejected)) = approved /\
    Verifying.approveRequest "alice" col1 =
    (inr "Verification request approved successfully!", col1).
Proof.
  apply (approve_idempotent _ "alice" (mkDoc 0 "alice" "doc123" rejected)).
  reflexivity.
Defined.

(** C8.  For a user name that has a document, rejectRequest returns a
    message, getRequestByUser then returns a document whose status is
    rejected, and the message contains the reason as given when one is
    given and is the bare ["Verification request rejected. "] when none
    is. *)
Theorem reject_message (col : Collection) (u : string)
    (reason : option string) (d : VerificationRequestDoc) :
  find (by_username u) (DocCollection.docs col) = Some d ->
  exists msg col1,
    Verifying.rejectRequest u reason col = (inr msg, col1) /\
    Verifying.getRequestByUser u col1 = (inr (set_status rejected d), col1) /\
    status (set_status rejected d) = rejected /\
    match reason with
    | Some r =>
        contains msg r /\
        (r <> "" -> msg = "Verification request rejected. Reason: " ++ r)
    | None => msg = "Verification request rejected. "
    end.
Proof.
  intros H. do 2 eexists.
  split; [apply (rejectRequest_found col u reason d H)|].
  split.
  { apply getRequestByUser_found. simpl. now apply find_updateFirst_username. }
  split; [reflexivity|].
  destruct reason as [r|]; [|reflexivity].
  simpl. unfold truthy. destruct (String.eqb_spec r "") as [-> | Hr]; simpl.
  - split; [apply contains_empty | congruence].
  - split; [|reflexivity].
    apply (contains_suffix "Verification request rejected. Reason: " r).
Qed.

(** C8 for the specification's example, the reason ["bad doc"]. *)
Lemma reject_message_witness :
  let col := run [OpCreate "alice" "doc123"] DocCollection.empty in
  exists msg col1,
    Verifying.rejectRequest "alice" (Some "bad doc") col = (inr msg, col1) /\
    Verifying.getRequestByUser "alice" col1 =
    (inr (set_status rejected (mkDoc 0 "alice" "doc123" pending)), col1) /\
    status (set_status rejected (mkDoc 0 "alice" "doc123" pending)) = rejected /\
    (contains msg "bad doc" /\
     ("bad doc" <> "" ->
      msg = "Verification request rejected. Reason: " ++ "bad doc")).
Proof.
  apply (reject_message _ "alice" (Some "bad doc")
           (mkDoc 0 "alice" "doc123" pending)).
  reflexivity.
Defined.

(** C9.  deleteRequest always returns its success message, and where no
    document has the user name it leaves the collection as it is, while
    getRequestByUser, approveRequest and rejectRequest throw NotFoundError
    there. *)
Theorem delete_read_asymmetry (col : Collection) (u : string)
    (reason : option string) :
  Verifying.deleteRequest u col =
  (inr "Verification request deleted!",
   DocCollection.deleteOne (by_username u) col) /\
  (find (by_username u) (DocCollection.docs col) = None ->
   Verifying.deleteRequest u col = (inr "Verification request deleted!", col) /\
   Verifying.getRequestByUser u col =
   (inl (NotFoundError "Verification request not found!"), col) /\
   Verifying.approveRequest u col =
   (inl (NotFoundError "Verification request not found."), col) /\
   Verifying.rejectRequest u reason col =
   (inl (NotFoundError "Verification request not found."), col)).
Proof.
  split; [reflexivity|]. intros H.
  split.
  { unfold Verifying.deleteRequest, bind, deleteOne, DocCollection.deleteOne.
    simpl. rewrite removeFirst_no_match by assumption. now destruct col. }
  split; [now apply getRequestByUser_missing|].
  split; [now apply approveRequest_missing | now apply rejectRequest_missing].
Qed.

(** C9 for bob, who has no document, next to alice, who has one. *)
Lemma delete_read_asymmetry_witness :
  let col := run [OpCreate "alice" "doc123"] DocCollection.empty in
  Verifying.deleteRequest "bob" col = (inr "Verification request deleted!", col) /\
  Verifying.getRequestByUser "bob" col =
  (inl (NotFoundError "Verification request not found!"), col) /\
  Verifying.approveRequest "bob" col =
  (inl (NotFoundError "Verification request not found."), col) /\
  Verifying.rejectRequest "bob" (Some "bad doc") col =
  (inl (NotFoundError "Verification request not found."), col).
Proof.
  apply (delete_read_asymmetry
           (run [OpCreate "alice" "doc123"] DocCollection.empty)
           "bob" (Some "bad doc")).
  reflexivity.
Defined.

(** ** The routes *)

Section RouteProperties.

Variable SessionDoc : Type.
Variable getUser : SessionDoc -> Error + ObjectId.
Variable isAdmin : ObjectId -> Error + bool.
Variable session : SessionDoc.
Variable col : Collection.

Lemma getVerificationStatus_found u d :
  find (by_username u) (DocCollection.docs col) = Some d ->
  getVerificationStatus SessionDoc session u col =
  (inr (RespStatus (Status_str (status d))), col).
Proof.
  intros H. unfold getVerificationStatus.
  now rewrite (bind_inr _ _ _ _ _ _ _ (getRequestByUser_found col u d H)).
Qed.

Lemma getVerificationStatus_missing u :
  find (by_username u) (DocCollection.docs col) = None ->
  getVerificationStatus SessionDoc session u col =
  (inl (NotFoundError "Verification request not found!"), col).
Proof.
  intros H. unfold getVerificationStatus.
  now rewrite (bind_inl _ _ _ _ _ _ _ (getRequestByUser_missing col u H)).
Qed.

(** The two gated routes up to the gate: the target's document is read,
    the caller resolved and the administrator query answered. *)
Lemma approve_route_gate requester d user admin :
  find (by_username requester) (DocCollection.docs col) = Some d ->
  getUser session = inr user ->
  isAdmin user = inr admin ->
  approveVerificationRequest SessionDoc getUser isAdmin session requester col =
  if negb admin
  then (inr (RespError "You do not have permission to approve requests."), col)
  else bind (Verifying.approveRequest requester)
            (fun result => ret (RespMsg result)) col.
Proof.
  intros H Hu Ha. unfold approveVerificationRequest.
  rewrite (bind_inr _ _ _ _ _ _ _ (getRequestByUser_found col requester d H)).
  unfold bind at 1, lift at 1. rewrite Hu.
  unfold bind at 1, lift at 1. rewrite Ha.
  now destruct admin.
Qed.

Lemma reject_route_gate requester d user admin :
  find (by_username requester) (DocCollection.docs col) = Some d ->
  getUser session = inr user ->
  isAdmin user = inr admin ->
  rejectVerificationRequest SessionDoc getUser isAdmin session requester col =
  if negb admin
  then (inr (RespError "You do not have permission to reject requests."), col)
  else bind (Verifying.rejectRequest requester None)
            (fun result => ret (RespMsg result)) col.
Proof.
  intros H Hu Ha. unfold rejectVerificationRequest.
  rewrite (bind_inr _ _ _ _ _ _ _ (getRequestByUser_found col requester d H)).
  unfold bind at 1, lift at 1. rewrite Hu.
  unfold bind at 1, lift at 1. rewrite Ha.
  now destruct admin.
Qed.

End RouteProperties.

(** C3 fails on the code.  With no document for the queried user name,
    getRequestByUser throws before the route's own test of the result is
    reached, and the route ends in NotFoundError instead of returning
    [{ status: "No verification request found." }]. *)
Theorem status_route_throws_when_missing :
  getVerificationStatus unit tt "alice" DocCollection.empty =
  (inl (NotFoundError "Verification request not found!"), DocCollection.empty)
  /\
  getVerificationStatus unit tt "alice" DocCollection.empty <>
  (inr (RespStatus "No verification request found."), DocCollection.empty).
Proof. split; [reflexivity | discriminate]. Qed.

(** The specification's scenario: alice submits ["doc123"], and the
    administrator, user 1, approves her request. *)
Example scenario_admin_approves :
  let getUser := fun s : option ObjectId =>
    match s with
    | Some user => inr user
    | None => inl (UnauthenticatedError "Must be logged in!")
    end in
  let isAdmin := fun user : ObjectId => inr (Nat.eqb user 1) : Error + bool in
  let col := run [OpCreate "alice" "doc123"] DocCollection.empty in
  statusOf 0 col = Some pending /\
  approveVerificationRequest _ getUser isAdmin (Some 1) "alice" col
  = (inr (RespMsg "Verification request approved successfully!"),
     exec (OpApprove "alice") col) /\
  statusOf 0 (exec (OpApprove "alice") col) = Some approved.
Proof. repeat split. Qed.

(** C4.  When the target has a pending document and the session resolves
    to a user who is not an administrator, the approve and the reject
    route each return their permission [{ error }] without throwing and
    leave the collection as it was, so the target's document is still
    pending. *)
Theorem non_admin_refused (SessionDoc : Type)
    (getUser : SessionDoc -> Error + ObjectId)
    (isAdmin : ObjectId -> Error + bool)
    (session : SessionDoc) (requester : string) (col : Collection)
    (d : VerificationRequestDoc) (user : ObjectId) :
  find (by_username requester) (DocCollection.docs col) = Some d ->
  status d = pending ->
  getUser session = inr user ->
  isAdmin user = inr false ->
  approveVerificationRequest SessionDoc getUser isAdmin session requester col
  = (inr (RespError "You do not have permission to approve requests."), col) /\
  rejectVerificationRequest SessionDoc getUser isAdmin session requester col
  = (inr (RespError "You do not have permission to reject requests."), col) /\
  option_map status (DocCollection.readOne (by_username requester) col)
  = Some pending.
Proof.
  intros H Hs Hu Ha. split; [|split].
  - now rewrite (approve_route_gate SessionDoc getUser isAdmin session col
                   requester d user false H Hu Ha).
  - now rewrite (reject_route_gate SessionDoc getUser isAdmin session col
                   requester d user false H Hu Ha).
  - unfold DocCollection.readOne. rewrite H. simpl. now f_equal.
Qed.

(** C4 in the specification's scenario: user 1 is the only
    administrator, and user 2 tries to settle bob's pending request. *)
Lemma non_admin_refused_witness :
  let getUser := fun s : option ObjectId =>
    match s with
    | Some user => inr user
    | None => inl (UnauthenticatedError "Must be logged in!")
    end in
  let isAdmin := fun user : ObjectId => inr (Nat.eqb user 1) : Error + bool in
  let col := run [OpCreate "alice" "doc123"; OpApprove "alice";
                  OpCreate "bob" "doc456"] DocCollection.empty in
  approveVerificationRequest _ getUser isAdmin (Some 2) "bob" col
  = (inr (RespError "You do not have permission to approve requests."), col) /\
  rejectVerificationRequest _ getUser isAdmin (Some 2) "bob" col
  = (inr (RespError "You do not have permission to reject requests."), col) /\
  option_map status (DocCollection.readOne (by_username "bob") col)
  = Some pending.
Proof.
  intros getUser isAdmin col.
  apply (non_admin_refused (option ObjectId) getUser isAdmin (Some 2) "bob" col
           (mkDoc 1 "bob" "doc456" pending) 2); reflexivity.
Defined.

(** C10.  Whenever the reject route returns a [{ msg }], the message is
    exactly ["Verification request rejected. "]: it is the result of
    rejectRequest called on the target with no reason. *)
Theorem reject_route_no_reason (SessionDoc : Type)
    (getUser : SessionDoc -> Error + ObjectId)
    (isAdmin : ObjectId -> Error + bool)
    (session : SessionDoc) (requester : string) (col col' : Collection)
    (msg : string) :
  rejectVerificationRequest SessionDoc getUser isAdmin session requester col
  = (inr (RespMsg msg), col') ->
  msg = "Verification request rejected. " /\
  Verifying.rejectRequest requester None col = (inr msg, col').
Proof.
  unfold rejectVerificationRequest.
  destruct (find (by_username requester) (DocCollection.docs col))
    as [d|] eqn:H.
  - rewrite (bind_inr _ _ _ _ _ _ _ (getRequestByUser_found col requester d H)).
    unfold bind at 1, lift at 1. destruct (getUser session) as [e|user];
      [discriminate|].
    unfold bind at 1, lift at 1. destruct (isAdmin user) as [e|admin];
      [discriminate|].
    destruct admin; simpl; [|discriminate].
    unfold bind. rewrite (rejectRequest_found col requester None d H). simpl.
    unfold ret. intros E. injection E as <- <-. split; reflexivity.
  - rewrite (bind_inl _ _ _ _ _ _ _ (getRequestByUser_missing col requester H)).
    discriminate.
Qed.

(** C10 when the administrator, user 1, rejects bob's pending request. *)
Lemma reject_route_no_reason_witness :
  let getUser := fun s : option ObjectId =>
    match s with
    | Some user => inr user
    | None => inl (UnauthenticatedError "Must be logged in!")
    end in
  let isAdmin := fun user : ObjectId => inr (Nat.eqb user 1) : Error + bool in
  let col := run [OpCreate "bob" "doc456"] DocCollection.empty in
  let col' := exec (OpReject "bob" None) col in
  rejectVerificationRequest _ getUser isAdmin (Some 1) "bob" col
  = (inr (RespMsg "Verification request rejected. "), col') /\
  "Verification request rejected. " = "Verification request rejected. " /\
  Verifying.rejectRequest "bob" None col
  = (inr "Verification request rejected. ", col').
Proof.
  intros getUser isAdmin col col'. split; [reflexivity|].
  apply (reject_route_no_reason (option ObjectId) getUser isAdmin (Some 1)
           "bob" col col').
  reflexivity.
Defined.

(** * Further properties of the concept *)

(** ** Validation *)

(** X1.  createVerificationRequest throws BadValuesError exactly when the
    user name or the credentials are empty, whatever the collection
    holds: the test comes before the look-up, so an empty argument is
    reported as such also for a user who already has a document. *)
Theorem create_bad_values_iff (col : Collection) (u c : string) :
  (exists msg, fst (Verifying.createVerificationRequest u c col)
               = inl (BadValuesError msg))
  <-> (u = "" \/ c = "").
Proof.
  destruct (String.eqb_spec u "") as [Hu|Hu].
  { rewrite createVerificationRequest_bad by auto. simpl.
    split; [auto | intros _; eexists; reflexivity]. }
  destruct (String.eqb_spec c "") as [Hc|Hc].
  { rewrite createVerificationRequest_bad by auto. simpl.
    split; [auto | intros _; eexists; reflexivity]. }
  destruct (find (by_username u) (DocCollection.docs col)) as [d|] eqn:H.
  - rewrite (createVerificationRequest_taken col u c d Hu Hc H). simpl.
    split; [intros [msg E]; discriminate | tauto].
  - rewrite (createVerificationRequest_free col u c Hu Hc H). simpl.
    split; [intros [msg E]; discriminate | tauto].
Qed.

(** X2.  A call that throws leaves the collection exactly as it was. *)
Theorem throw_leaves_collection (op : Op) (col : Collection) (e : Error) :
  thrown op col = Some e -> exec op col = col.
Proof.
  destruct op as [u c | u | u reason | u]; simpl.
  - destruct (exec_create col u c) as [E | [Hnone E]]; simpl in E;
      [intros _; exact E|].
    destruct (String.eqb_spec u "") as [Hu|Hu];
      [now rewrite createVerificationRequest_bad by auto|].
    destruct (String.eqb_spec c "") as [Hc|Hc];
      [now rewrite createVerificationRequest_bad by auto|].
    rewrite (createVerificationRequest_free col u c Hu Hc Hnone). discriminate.
  - destruct (find (by_username u) (DocCollection.docs col)) as [d|] eqn:H.
    + rewrite (approveRequest_found col u d H). discriminate.
    + now rewrite (approveRequest_missing col u H).
  - destruct (find (by_username u) (DocCollection.docs col)) as [d|] eqn:H.
    + rewrite (rejectRequest_found col u reason d H). discriminate.
    + now rewrite (rejectRequest_missing col u reason H).
  - discriminate.
Qed.

(** X2 for a second request of alice, which is refused. *)
Lemma throw_leaves_collection_witness :
  let col := run [OpCreate "alice" "doc123"] DocCollection.empty in
  exec (OpCreate "alice" "doc456") col = col.
Proof.
  apply (throw_leaves_collection (OpCreate "alice" "doc456")
           (run [OpCreate "alice" "doc123"] DocCollection.empty)
           (NotAllowedError "User with ID alice already has a pending request!")).
  reflexivity.
Defined.

(** X3.  getRequestByUser never writes.  What it returns is a stored
    document with the user name asked for; it throws NotFoundError, and
    nothing else, exactly when no stored document has that user name. *)
Theorem getRequestByUser_reads (col col' : Collection) (u : string)
    (r : Error + VerificationRequestDoc) :
  Verifying.getRequestByUser u col = (r, col') ->
  col' = col /\
  match r with
  | inr d => In d (DocCollection.docs col) /\ username d = u
  | inl e => e = NotFoundError "Verification request not found!" /\
             requestsOf u col = []
  end.
Proof.
  destruct (find (by_username u) (DocCollection.docs col)) as [d|] eqn:H.
  - rewrite (getRequestByUser_found col u d H). intros E.
    injection E as <- <-. split; [reflexivity|].
    now apply find_username_some.
  - rewrite (getRequestByUser_missing col u H). intros E.
    injection E as <- <-. split; [reflexivity|]. split; [reflexivity|].
    unfold requestsOf. clear - H.
    induction (DocCollection.docs col) as [|x l IH]; simpl in *; [reflexivity|].
    destruct (by_username u x); [discriminate | now apply IH].
Qed.

(** X3 for alice's stored request. *)
Lemma getRequestByUser_reads_witness :
  let col := run [OpCreate "alice" "doc123"] DocCollection.empty in
  col = col /\
  (In (mkDoc 0 "alice" "doc123" pending) (DocCollection.docs col) /\
   username (mkDoc 0 "alice" "doc123" pending) = "alice").
Proof.
  apply (getRequestByUser_reads
           (run [OpCreate "alice" "doc123"] DocCollection.empty)
           (run [OpCreate "alice" "doc123"] DocCollection.empty)
           "alice" (inr (mkDoc 0 "alice" "doc123" pending))).
  reflexivity.
Defined.

(** ** Invariants of the collections the concept builds *)

Lemma NoDup_requestsOf u l :
  NoDup (map username l) -> length (filter (by_username u) l) <= 1.
Proof.
  induction l as [|d l IH]; simpl; [lia|].
  intros H. inversion H as [|? ? Hnotin Hnd]; subst.
  destruct (by_username u d) eqn:E; simpl; [|now apply IH].
  unfold by_username in E. apply String.eqb_eq in E. subst u.
  assert (Hnone : find (by_username (username d)) l = None)
    by now apply find_username_none.
  clear - Hnone. induction l as [|x l IHl]; simpl in *; [lia|].
  destruct (by_username (username d) x); [discriminate | now apply IHl].
Qed.

(** X4.  Starting from the empty collection, after any sequence of calls
    every user name has at most one document, of whatever status. *)
Theorem one_request_per_subject (ops : list Op) (u : string) :
  length (requestsOf u (run ops DocCollection.empty)) <= 1.
Proof.
  apply NoDup_requestsOf. apply (Inv_run ops DocCollection.empty Inv_empty).
Qed.

Lemma updateFirst_In f s l d :
  In d (DocCollection.updateFirst f (set_status s) l) ->
  exists d0, In d0 l /\ (d = d0 \/ d = set_status s d0).
Proof.
  induction l as [|x l IH]; simpl; [tauto|].
  destruct (f x); simpl.
  - intros [<- | H]; [exists x; auto | exists d; auto].
  - intros [<- | H]; [exists x; auto|].
    destruct (IH H) as [d0 [Hin Hd]]. exists d0. auto.
Qed.

Lemma nonempty_exec op col :
  Forall (fun d => username d <> "" /\ credentials d <> "")
         (DocCollection.docs col) ->
  Forall (fun d => username d <> "" /\ credentials d <> "")
         (DocCollection.docs (exec op col)).
Proof.
  intros H. destruct op as [u c | u | u reason | u].
  - simpl.
    destruct (String.eqb_spec u "") as [Hu|Hu];
      [now rewrite createVerificationRequest_bad by auto|].
    destruct (String.eqb_spec c "") as [Hc|Hc];
      [now rewrite createVerificationRequest_bad by auto|].
    destruct (find (by_username u) (DocCollection.docs col)) as [d|] eqn:E.
    + now rewrite (createVerificationRequest_taken col u c d Hu Hc E).
    + rewrite (createVerificationRequest_free col u c Hu Hc E). simpl.
      apply Forall_app. split; [assumption|].
      constructor; [simpl; auto | constructor].
  - rewrite exec_approve. simpl. rewrite Forall_forall in *. intros d Hd.
    apply updateFirst_In in Hd. destruct Hd as [d0 [Hin [-> | ->]]];
      exact (H d0 Hin).
  - rewrite exec_reject. simpl. rewrite Forall_forall in *. intros d Hd.
    apply updateFirst_In in Hd. destruct Hd as [d0 [Hin [-> | ->]]];
      exact (H d0 Hin).
  - rewrite exec_delete. simpl. rewrite Forall_forall in *. intros d Hd.
    apply H. eapply removeFirst_In; eassumption.
Qed.

(** X5.  Starting from the empty collection, no sequence of calls stores
    a document with an empty user name or empty credentials. *)
Theorem stored_fields_nonempty (ops : list Op) (d : VerificationRequestDoc) :
  In d (DocCollection.docs (run ops DocCollection.empty)) ->
  username d <> "" /\ credentials d <> "".
Proof.
  assert (H : forall col,
             Forall (fun d => username d <> "" /\ credentials d <> "")
                    (DocCollection.docs col) ->
             Forall (fun d => username d <> "" /\ credentials d <> "")
                    (DocCollection.docs (run ops col))).
  { induction ops as [|op ops IH]; simpl; intros col Hc; [assumption|].
    apply IH. now apply nonempty_exec. }
  specialize (H DocCollection.empty (Forall_nil _)).
  rewrite Forall_forall in H. apply H.
Qed.

(** X5 for bob's rejected request, stored after two refused calls. *)
Lemma stored_fields_nonempty_witness :
  username (mkDoc 0 "bob" "doc456" rejected) <> "" /\
  credentials (mkDoc 0 "bob" "doc456" rejected) <> "".
Proof.
  apply (stored_fields_nonempty
           [OpCreate "" "doc123"; OpCreate "alice" ""; OpCreate "bob" "doc456";
            OpReject "bob" (Some "bad doc")]).
  simpl. left. reflexivity.
Defined.

(** ** Calls about one user leave the others alone *)

Section Frame.

Variables u u' : string.
Hypothesis Hdiff : u' <> u.

Lemma find_updateFirst_other s l :
  find (by_username u) (DocCollection.updateFirst (by_username u') (set_status s) l)
  = find (by_username u) l.
Proof.
  induction l as [|x l IH]; simpl; [reflexivity|].
  destruct (by_username u' x) eqn:E; simpl.
  - change (by_username u (set_status s x)) with (by_username u x).
    destruct (by_username u x) eqn:E'; [|reflexivity].
    unfold by_username in E, E'. apply String.eqb_eq in E, E'. congruence.
  - now rewrite IH.
Qed.

Lemma find_removeFirst_other l :
  find (by_username u) (DocCollection.removeFirst (by_username u') l)
  = find (by_username u) l.
Proof.
  induction l as [|x l IH]; simpl; [reflexivity|].
  destruct (by_username u' x) eqn:E; simpl.
  - destruct (by_username u x) eqn:E'; [|reflexivity].
    unfold by_username in E, E'. apply String.eqb_eq in E, E'. congruence.
  - now rewrite IH.
Qed.

Lemma find_app_other l c i s :
  find (by_username u) (l ++ [mkDoc i u' c s])%list = find (by_username u) l.
Proof.
  rewrite find_app. destruct (find (by_username u) l); [reflexivity|].
  simpl. unfold by_username. simpl.
  destruct (String.eqb_spec u' u); [contradiction | reflexivity].
Qed.

End Frame.

Lemma other_subjects_untouched_aux (op : Op) (col : Collection) (u : string) :
  subject op <> u ->
  DocCollection.readOne (by_username u) (exec op col)
  = DocCollection.readOne (by_username u) col.
Proof.
  unfold DocCollection.readOne.
  destruct op as [u' c | u' | u' reason | u']; simpl subject; intros Hd.
  - destruct (exec_create col u' c) as [-> | [_ ->]]; [reflexivity|].
    simpl. now apply find_app_other.
  - rewrite exec_approve. simpl. now apply find_updateFirst_other.
  - rewrite exec_reject. simpl. now apply find_updateFirst_other.
  - rewrite exec_delete. simpl. now apply find_removeFirst_other.
Qed.

(** X6.  A call about one user name does not change what the collection
    returns for any other user name, and so neither what getRequestByUser
    returns for it. *)
Theorem other_subjects_untouched (op : Op) (col : Collection) (u : string) :
  subject op <> u ->
  DocCollection.readOne (by_username u) (exec op col)
  = DocCollection.readOne (by_username u) col /\
  fst (Verifying.getRequestByUser u (exec op col))
  = fst (Verifying.getRequestByUser u col).
Proof.
  intros Hd. pose proof (other_subjects_untouched_aux op col u Hd) as E.
  split; [exact E|].
  unfold Verifying.getRequestByUser, bind, readOne. rewrite E.
  now destruct (DocCollection.readOne (by_username u) col).
Qed.

(** X6: deleting alice's request leaves bob's as it is. *)
Lemma other_subjects_untouched_witness :
  let col := run [OpCreate "alice" "doc123"; OpCreate "bob" "doc456"]
                 DocCollection.empty in
  DocCollection.readOne (by_username "bob") (exec (OpDelete "alice") col)
  = DocCollection.readOne (by_username "bob") col /\
  fst (Verifying.getRequestByUser "bob" (exec (OpDelete "alice") col))
  = fst (Verifying.getRequestByUser "bob" col).
Proof.
  apply (other_subjects_untouched (OpDelete "alice")
           (run [OpCreate "alice" "doc123"; OpCreate "bob" "doc456"]
                DocCollection.empty) "bob").
  discriminate.
Defined.

(** ** How calls compose *)

Lemma find_removeFirst_same u l :
  NoDup (map username l) ->
  find (by_username u) (DocCollection.removeFirst (by_username u) l) = None.
Proof.
  induction l as [|x l IH]; simpl; [reflexivity|].
  intros H. inversion H as [|? ? Hnotin Hnd]; subst.
  destruct (by_username u x) eqn:E; simpl.
  - unfold by_username in E. apply String.eqb_eq in E. subst u.
    now apply find_username_none.
  - rewrite E. now apply IH.
Qed.

(** X7.  On a collection built from the empty one, deleteRequest clears
    the user name: getRequestByUser then throws NotFoundError and a new
    createVerificationRequest for that user name goes through, whatever
    the status of the deleted document was. *)
Theorem delete_then_free (ops : list Op) (u c : string) :
  u <> "" -> c <> "" ->
  let col := exec (OpDelete u) (run ops DocCollection.empty) in
  Verifying.getRequestByUser u col =
  (inl (NotFoundError "Verification request not found!"), col) /\
  Verifying.createVerificationRequest u c col =
  (inr (Verifying.mkCreated "Verification request created successfully!"
          (Some (newDoc col u c))),
   snd (DocCollection.createOne u c pending col)).
Proof.
  intros Hu Hc col.
  assert (H : find (by_username u) (DocCollection.docs col) = None).
  { subst col. rewrite exec_delete. simpl. apply find_removeFirst_same.
    apply (Inv_run ops DocCollection.empty Inv_empty). }
  split; [now apply getRequestByUser_missing|].
  now apply createVerificationRequest_free.
Qed.

(** X7 after alice's request has been approved. *)
Lemma delete_then_free_witness :
  let col := exec (OpDelete "alice")
               (run [OpCreate "alice" "doc123"; OpApprove "alice"]
                    DocCollection.empty) in
  Verifying.getRequestByUser "alice" col =
  (inl (NotFoundError "Verification request not found!"), col) /\
  Verifying.createVerificationRequest "alice" "doc456" col =
  (inr (Verifying.mkCreated "Verification request created successfully!"
          (Some (newDoc col "alice" "doc456"))),
   snd (DocCollection.createOne "alice" "doc456" pending col)).
Proof.
  apply (delete_then_free [OpCreate "alice" "doc123"; OpApprove "alice"]
           "alice" "doc456"); discriminate.
Defined.

(** X8.  When createVerificationRequest has returned, a second one for
    the same user name with non-empty credentials throws NotAllowedError
    and stores nothing. *)
Theorem create_twice_refused (col col1 : Collection) (u c c' : string)
    (r : Verifying.Created) :
  Verifying.createVerificationRequest u c col = (inr r, col1) ->
  c' <> "" ->
  Verifying.createVerificationRequest u c' col1 =
  (inl (NotAllowedError
          ("User with ID " ++ u ++ " already has a pending request!")), col1).
Proof.
  intros H Hc'.
  destruct (String.eqb_spec u "") as [Hu|Hu];
    [rewrite createVerificationRequest_bad in H by auto; discriminate|].
  destruct (String.eqb_spec c "") as [Hc|Hc];
    [rewrite createVerificationRequest_bad in H by auto; discriminate|].
  destruct (find (by_username u) (DocCollection.docs col)) as [d|] eqn:E.
  - rewrite (createVerificationRequest_taken col u c d Hu Hc E) in H.
    discriminate.
  - rewrite (createVerificationRequest_free col u c Hu Hc E) in H.
    injection H as _ <-.
    apply (createVerificationRequest_taken _ u c' (newDoc col u c) Hu Hc').
    simpl. apply (find_app_new col u c E).
Qed.

(** X8 for alice submitting twice in a row. *)
Lemma create_twice_refused_witness :
  let col1 := run [OpCreate "alice" "doc123"] DocCollection.empty in
  Verifying.createVerificationRequest "alice" "doc456" col1 =
  (inl (NotAllowedError
          ("User with ID " ++ "alice" ++ " already has a pending request!")),
   col1).
Proof.
  apply (create_twice_refused DocCollection.empty
           (run [OpCreate "alice" "doc123"] DocCollection.empty)
           "alice" "doc123" "doc456"
           (Verifying.mkCreated "Verification request created successfully!"
              (Some (mkDoc 0 "alice" "doc123" pending))));
    [reflexivity | discriminate].
Defined.

Lemma same_request_trans d1 d2 d3 :
  same_request d1 d2 -> same_request d2 d3 -> same_request d1 d3.
Proof. unfold same_request. intuition congruence. Qed.

Lemma kept_exec op col u d :
  deletes u op = false ->
  find (by_username u) (DocCollection.docs col) = Some d ->
  exists d', find (by_username u) (DocCollection.docs (exec op col)) = Some d'
             /\ same_request d d'.
Proof.
  intros Hop H.
  destruct (String.eqb_spec (subject op) u) as [Hs|Hs].
  - destruct op as [u' c | u' | u' reason | u']; simpl in Hs; subst u'.
    + exists d. split; [|repeat split].
      simpl.
      destruct (String.eqb_spec u "") as [Hu|Hu];
        [now rewrite createVerificationRequest_bad by auto|].
      destruct (String.eqb_spec c "") as [Hc|Hc];
        [now rewrite createVerificationRequest_bad by auto|].
      now rewrite (createVerificationRequest_taken col u c d Hu Hc H).
    + exists (set_status approved d). split; [|repeat split].
      rewrite exec_approve. simpl. now apply find_updateFirst_username.
    + exists (set_status rejected d). split; [|repeat split].
      rewrite exec_reject. simpl. now apply find_updateFirst_username.
    + simpl in Hop. now rewrite String.eqb_refl in Hop.
  - exists d. split; [|repeat split].
    pose proof (other_subjects_untouched_aux op col u Hs) as E.
    unfold DocCollection.readOne in E. now rewrite E.
Qed.

(** X9.  Only deleteRequest takes a user's document away.  Over any
    sequence of calls with no deleteRequest for the user name, the user
    keeps a document, and it keeps its identifier, user name and
    credentials: creations are refused, approvals and rejections change
    the status alone. *)
Theorem only_delete_removes (ops : list Op) (col : Collection) (u : string)
    (d : VerificationRequestDoc) :
  forallb (fun op => negb (deletes u op)) ops = true ->
  DocCollection.readOne (by_username u) col = Some d ->
  exists d', DocCollection.readOne (by_username u) (run ops col) = Some d'
             /\ same_request d d'.
Proof.
  unfold DocCollection.readOne. revert col d.
  induction ops as [|op ops IH]; simpl; intros col d Hops H.
  - exists d. split; [assumption | repeat split].
  - apply andb_prop in Hops. destruct Hops as [Hop Hops].
    apply negb_true_iff in Hop.
    destruct (kept_exec op col u d Hop H) as [d1 [H1 S1]].
    destruct (IH (exec op col) d1 Hops H1) as [d2 [H2 S2]].
    exists d2. split; [assumption | eapply same_request_trans; eassumption].
Qed.

(** X9 for alice across a refused resubmission, a rejection, an approval
    and the deletion of somebody else's request. *)
Lemma only_delete_removes_witness :
  let ops := [OpCreate "alice" "other"; OpReject "alice" (Some "bad doc");
              OpApprove "alice"; OpDelete "bob"] in
  let col := run [OpCreate "alice" "doc123"; OpCreate "bob" "doc456"]
                 DocCollection.empty in
  exists d', DocCollection.readOne (by_username "alice") (run ops col) = Some d'
             /\ same_request (mkDoc 0 "alice" "doc123" pending) d'.
Proof.
  apply (only_delete_removes
           [OpCreate "alice" "other"; OpReject "alice" (Some "bad doc");
            OpApprove "alice"; OpDelete "bob"]
           (run [OpCreate "alice" "doc123"; OpCreate "bob" "doc456"]
                DocCollection.empty)
           "alice" (mkDoc 0 "alice" "doc123" pending));
    reflexivity.
Defined.

(** * Further properties of the routes *)

Lemma Status_str_not_sentinel s :
  Status_str s <> "No verification request found.".
Proof. destruct s; discriminate. Qed.

(** X10.  The status route never writes and never looks at the session.
    It throws NotFoundError when the user name has no document, and
    otherwise returns the status of the user's document; the result
    [{ status: "No verification request found." }] is never returned. *)
Theorem status_route_reads (SessionDoc : Type) (session : SessionDoc)
    (u : string) (col col' : Collection) (r : Error + Response) :
  getVerificationStatus SessionDoc session u col = (r, col') ->
  col' = col /\
  r <> inr (RespStatus "No verification request found.") /\
  match r with
  | inl e => e = NotFoundError "Verification request not found!" /\
             DocCollection.readOne (by_username u) col = None
  | inr resp => exists d,
      DocCollection.readOne (by_username u) col = Some d /\
      resp = RespStatus (Status_str (status d))
  end.
Proof.
  unfold DocCollection.readOne.
  destruct (find (by_username u) (DocCollection.docs col)) as [d|] eqn:H.
  - rewrite (getVerificationStatus_found SessionDoc session col u d H).
    intros E. injection E as <- <-. split; [reflexivity|]. split.
    + intros E. injection E as E. now apply Status_str_not_sentinel in E.
    + now exists d.
  - rewrite (getVerificationStatus_missing SessionDoc session col u H).
    intros E. injection E as <- <-. repeat split. discriminate.
Qed.

(** X10 for alice's approved request, asked for with no session at all. *)
Lemma status_route_reads_witness :
  let col := run [OpCreate "alice" "doc123"; OpApprove "alice"]
                 DocCollection.empty in
  col = col /\
  inr (RespStatus "approved") <>
    (inr (RespStatus "No verification request found.") : Error + Response) /\
  exists d,
    DocCollection.readOne (by_username "alice") col = Some d /\
    RespStatus "approved" = RespStatus (Status_str (status d)).
Proof.
  apply (status_route_reads unit tt "alice"
           (run [OpCreate "alice" "doc123"; OpApprove "alice"]
                DocCollection.empty)
           (run [OpCreate "alice" "doc123"; OpApprove "alice"]
                DocCollection.empty)
           (inr (RespStatus "approved"))).
  reflexivity.
Defined.

Section GatedRoutes.

Variable SessionDoc : Type.
Variable getUser : SessionDoc -> Error + ObjectId.
Variable isAdmin : ObjectId -> Error + bool.
Variable session : SessionDoc.
Variable requester : string.
Variable col : Collection.

Lemma approve_route_missing :
  find (by_username requester) (DocCollection.docs col) = None ->
  approveVerificationRequest SessionDoc getUser isAdmin session requester col =
  (inl (NotFoundError "Verification request not found!"), col).
Proof.
  intros H. unfold approveVerificationRequest.
  now rewrite (bind_inl _ _ _ _ _ _ _ (getRequestByUser_missing col requester H)).
Qed.

Lemma reject_route_missing :
  find (by_username requester) (DocCollection.docs col) = None ->
  rejectVerificationRequest SessionDoc getUser isAdmin session requester col =
  (inl (NotFoundError "Verification request not found!"), col).
Proof.
  intros H. unfold rejectVerificationRequest.
  now rewrite (bind_inl _ _ _ _ _ _ _ (getRequestByUser_missing col requester H)).
Qed.

Lemma approve_route_no_user d e :
  find (by_username requester) (DocCollection.docs col) = Some d ->
  getUser session = inl e ->
  approveVerificationRequest SessionDoc getUser isAdmin session requester col =
  (inl e, col).
Proof.
  intros H Hu. unfold approveVerificationRequest.
  rewrite (bind_inr _ _ _ _ _ _ _ (getRequestByUser_found col requester d H)).
  unfold bind at 1, lift at 1. now rewrite Hu.
Qed.

Lemma reject_route_no_user d e :
  find (by_username requester) (DocCollection.docs col) = Some d ->
  getUser session = inl e ->
  rejectVerificationRequest SessionDoc getUser isAdmin session requester col =
  (inl e, col).
Proof.
  intros H Hu. unfold rejectVerificationRequest.
  rewrite (bind_inr _ _ _ _ _ _ _ (getRequestByUser_found col requester d H)).
  unfold bind at 1, lift at 1. now rewrite Hu.
Qed.

Lemma approve_route_no_answer d user e :
  find (by_username requester) (DocCollection.docs col) = Some d ->
  getUser session = inr user ->
  isAdmin user = inl e ->
  approveVerificationRequest SessionDoc getUser isAdmin session requester col =
  (inl e, col).
Proof.
  intros H Hu Ha. unfold approveVerificationRequest.
  rewrite (bind_inr _ _ _ _ _ _ _ (getRequestByUser_found col requester d H)).
  unfold bind at 1, lift at 1. rewrite Hu.
  unfold bind at 1, lift at 1. now rewrite Ha.
Qed.

Lemma reject_route_no_answer d user e :
  find (by_username requester) (DocCollection.docs col) = Some d ->
  getUser session = inr user ->
  isAdmin user = inl e ->
  rejectVerificationRequest SessionDoc getUser isAdmin session requester col =
  (inl e, col).
Proof.
  intros H Hu Ha. unfold rejectVerificationRequest.
  rewrite (bind_inr _ _ _ _ _ _ _ (getRequestByUser_found col requester d H)).
  unfold bind at 1, lift at 1. rewrite Hu.
  unfold bind at 1, lift at 1. now rewrite Ha.
Qed.

End GatedRoutes.

(** X11.  The approve and the reject route change the collection only
    for a session that resolves to a user for whom isAdmin answers true:
    every other call of them, however it ends, leaves the collection as
    it was. *)
Theorem gated_routes_write_only_for_admin (SessionDoc : Type)
    (getUser : SessionDoc -> Error + ObjectId)
    (isAdmin : ObjectId -> Error + bool)
    (session : SessionDoc) (requester : string) (col : Collection) :
  snd (approveVerificationRequest SessionDoc getUser isAdmin session
         requester col) <> col \/
  snd (rejectVerificationRequest SessionDoc getUser isAdmin session
         requester col) <> col ->
  exists user, getUser session = inr user /\ isAdmin user = inr true.
Proof.
  intros Hw.
  destruct (find (by_username requester) (DocCollection.docs col))
    as [d|] eqn:H.
  2:{ rewrite approve_route_missing, reject_route_missing in Hw by assumption.
      simpl in Hw. tauto. }
  destruct (getUser session) as [e|user] eqn:Hu.
  { rewrite (approve_route_no_user SessionDoc getUser isAdmin session
               requester col d e H Hu),
            (reject_route_no_user SessionDoc getUser isAdmin session
               requester col d e H Hu) in Hw.
    simpl in Hw. tauto. }
  destruct (isAdmin user) as [e|admin] eqn:Ha.
  { rewrite (approve_route_no_answer SessionDoc getUser isAdmin session
               requester col d user e H Hu Ha),
            (reject_route_no_answer SessionDoc getUser isAdmin session
               requester col d user e H Hu Ha) in Hw.
    simpl in Hw. tauto. }
  destruct admin; [now exists user|].
  rewrite (approve_route_gate SessionDoc getUser isAdmin session col
             requester d user false H Hu Ha),
          (reject_route_gate SessionDoc getUser isAdmin session col
             requester d user false H Hu Ha) in Hw.
  simpl in Hw. tauto.
Qed.

(** X11 when the administrator, user 1, approves bob's request. *)
Lemma gated_routes_write_only_for_admin_witness :
  let getUser := fun s : option ObjectId =>
    match s with
    | Some user => inr user
    | None => inl (UnauthenticatedError "Must be logged in!")
    end in
  let isAdmin := fun user : ObjectId => inr (Nat.eqb user 1) : Error + bool in
  exists user, getUser (Some 1) = inr user /\ isAdmin user = inr true.
Proof.
  intros getUser isAdmin.
  apply (gated_routes_write_only_for_admin (option ObjectId) getUser isAdmin
           (Some 1) "bob" (run [OpCreate "bob" "doc456"] DocCollection.empty)).
  left. simpl. intros E. discriminate E.
Defined.

(** X12.  In the approve and the reject route the target's document is
    looked up first: for a user name with no document both routes throw
    NotFoundError whoever calls, logged in or not, administrator or not. *)
Theorem gated_routes_missing_target (SessionDoc : Type)
    (getUser : SessionDoc -> Error + ObjectId)
    (isAdmin : ObjectId -> Error + bool)
    (session : SessionDoc) (requester : string) (col : Collection) :
  DocCollection.readOne (by_username requester) col = None ->
  approveVerificationRequest SessionDoc getUser isAdmin session requester col =
  (inl (NotFoundError "Verification request not found!"), col) /\
  rejectVerificationRequest SessionDoc getUser isAdmin session requester col =
  (inl (NotFoundError "Verification request not found!"), col).
Proof.
  intros H. split; [now apply approve_route_missing
                   | now apply reject_route_missing].
Qed.

(** X12 for a caller who is not logged in. *)
Lemma gated_routes_missing_target_witness :
  let getUser := fun s : option ObjectId =>
    match s with
    | Some user => inr user
    | None => inl (UnauthenticatedError "Must be logged in!")
    end in
  let isAdmin := fun user : ObjectId => inr (Nat.eqb user 1) : Error + bool in
  let col := run [OpCreate "alice" "doc123"] DocCollection.empty in
  approveVerificationRequest _ getUser isAdmin None "bob" col =
  (inl (NotFoundError "Verification request not found!"), col) /\
  rejectVerificationRequest _ getUser isAdmin None "bob" col =
  (inl (NotFoundError "Verification request not found!"), col).
Proof.
  intros getUser isAdmin col.
  apply (gated_routes_missing_target (option ObjectId) getUser isAdmin None
           "bob" col).
  reflexivity.
Defined.

(** X13.  For an administrator and a target who has a document, of any
    status, the approve route returns the concept's success message and
    the status route then answers ["approved"]; the reject route returns
    the bare rejection message and the status route then answers
    ["rejected"]. *)
Theorem admin_settles (SessionDoc : Type)
    (getUser : SessionDoc -> Error + ObjectId)
    (isAdmin : ObjectId -> Error + bool)
    (session anyone : SessionDoc) (requester : string) (col : Collection)
    (d : VerificationRequestDoc) (user : ObjectId) :
  DocCollection.readOne (by_username requester) col = Some d ->
  getUser session = inr user ->
  isAdmin user = inr true ->
  (exists col1,
     approveVerificationRequest SessionDoc getUser isAdmin session requester col
     = (inr (RespMsg "Verification request approved successfully!"), col1) /\
     getVerificationStatus SessionDoc anyone requester col1
     = (inr (RespStatus "approved"), col1)) /\
  (exists col1,
     rejectVerificationRequest SessionDoc getUser isAdmin session requester col
     = (inr (RespMsg "Verification request rejected. "), col1) /\
     getVerificationStatus SessionDoc anyone requester col1
     = (inr (RespStatus "rejected"), col1)).
Proof.
  unfold DocCollection.readOne. intros H Hu Ha. split.
  - rewrite (approve_route_gate SessionDoc getUser isAdmin session col
               requester d user true H Hu Ha). simpl.
    unfold bind. rewrite (approveRequest_found col requester d H).
    eexists. split; [reflexivity|].
    apply (getVerificationStatus_found SessionDoc anyone _ requester
             (set_status approved d)).
    simpl. now apply find_updateFirst_username.
  - rewrite (reject_route_gate SessionDoc getUser isAdmin session col
               requester d user true H Hu Ha). simpl.
    unfold bind. rewrite (rejectRequest_found col requester None d H).
    eexists. split; [reflexivity|].
    apply (getVerificationStatus_found SessionDoc anyone _ requester
             (set_status rejected d)).
    simpl. now apply find_updateFirst_username.
Qed.

(** X13 when user 1, the administrator, settles bob's request. *)
Lemma admin_settles_witness :
  let getUser := fun s : option ObjectId =>
    match s with
    | Some user => inr user
    | None => inl (UnauthenticatedError "Must be logged in!")
    end in
  let isAdmin := fun user : ObjectId => inr (Nat.eqb user 1) : Error + bool in
  let col := run [OpCreate "bob" "doc456"] DocCollection.empty in
  (exists col1,
     approveVerificationRequest _ getUser isAdmin (Some 1) "bob" col
     = (inr (RespMsg "Verification request approved successfully!"), col1) /\
     getVerificationStatus (option ObjectId) None "bob" col1
     = (inr (RespStatus "approved"), col1)) /\
  (exists col1,
     rejectVerificationRequest _ getUser isAdmin (Some 1) "bob" col
     = (inr (RespMsg "Verification request rejected. "), col1) /\
     getVerificationStatus (option ObjectId) None "bob" col1
     = (inr (RespStatus "rejected"), col1)).
Proof.
  intros getUser isAdmin col.
  apply (admin_settles (option ObjectId) getUser isAdmin (Some 1) None "bob"
           col (mkDoc 0 "bob" "doc456" pending) 1); reflexivity.
Defined.

Section SubmitRoute.

Variable SessionDoc : Type.
Variable getUser : SessionDoc -> Error + ObjectId.
Variable idsToUsernames : list ObjectId -> Error + list string.
Variable session : SessionDoc.
Variable col : Collection.

(** The submit and the view route once the caller's name is resolved. *)
Lemma submit_route_resolved creds user names :
  getUser session = inr user ->
  idsToUsernames [user] = inr names ->
  createVerificationRequest SessionDoc getUser idsToUsernames session creds col
  = if negb (truthy creds)
    then (inr (CreateError "Missing credentials."), col)
    else match nth_error names 0 with
         | Some u =>
             bind (Verifying.createVerificationRequest u creds)
                  (fun r => ret (CreateOk r)) col
         | None =>
             (inl (BadValuesError "User ID and credentials must be non-empty!"),
              col)
         end.
Proof.
  intros Hu Hn. unfold createVerificationRequest.
  unfold bind at 1, lift at 1. rewrite Hu.
  unfold bind at 1, lift at 1. rewrite Hn.
  destruct (negb (truthy creds)); [reflexivity|].
  now destruct (nth_error names 0).
Qed.

Lemma submit_route_unresolved creds :
  (exists e, getUser session = inl e) \/
  (exists user e, getUser session = inr user /\ idsToUsernames [user] = inl e) ->
  snd (createVerificationRequest SessionDoc getUser idsToUsernames session
         creds col) = col.
Proof.
  unfold createVerificationRequest.
  intros [[e Hu] | [user [e [Hu Hn]]]].
  - unfold bind at 1, lift at 1. now rewrite Hu.
  - unfold bind at 1, lift at 1. rewrite Hu.
    unfold bind at 1, lift at 1. now rewrite Hn.
Qed.

Lemma view_route_resolved user names :
  getUser session = inr user ->
  idsToUsernames [user] = inr names ->
  viewRequests SessionDoc getUser idsToUsernames session col
  = match nth_error names 0 with
    | Some u => Verifying.getRequestByUser u col
    | None => (inl (NotFoundError "Verification request not found!"), col)
    end.
Proof.
  intros Hu Hn. unfold viewRequests.
  unfold bind at 1, lift at 1. rewrite Hu.
  unfold bind at 1, lift at 1. rewrite Hn.
  now destruct (nth_error names 0).
Qed.

End SubmitRoute.

(** X14.  With empty credentials the submit route never reaches the
    concept and stores nothing, also when the caller already has a
    request: it throws the error of the session when nobody is logged in,
    the error of the name look-up when that fails, and otherwise returns
    [{ error: "Missing credentials." }]. *)
Theorem submit_missing_credentials (SessionDoc : Type)
    (getUser : SessionDoc -> Error + ObjectId)
    (idsToUsernames : list ObjectId -> Error + list string)
    (session : SessionDoc) (col : Collection) :
  createVerificationRequest SessionDoc getUser idsToUsernames session "" col
  = (match getUser session with
     | inl e => inl e
     | inr user =>
         match idsToUsernames [user] with
         | inl e => inl e
         | inr _ => inr (CreateError "Missing credentials.")
         end
     end, col).
Proof.
  destruct (getUser session) as [e|user] eqn:Hu.
  { unfold createVerificationRequest. unfold bind at 1, lift at 1.
    now rewrite Hu. }
  destruct (idsToUsernames [user]) as [e|names] eqn:Hn.
  { unfold createVerificationRequest. unfold bind at 1, lift at 1. rewrite Hu.
    unfold bind at 1, lift at 1. now rewrite Hn. }
  now rewrite (submit_route_resolved SessionDoc getUser idsToUsernames session
                 col "" user names Hu Hn).
Qed.

(** X14 for alice, user 7, who already has a request, and for a caller
    who is not logged in. *)
Lemma submit_missing_credentials_witness :
  let getUser := fun s : option ObjectId =>
    match s with
    | Some user => inr user
    | None => inl (UnauthenticatedError "Must be logged in!")
    end in
  let idsToUsernames := fun ids : list ObjectId =>
    inr (map (fun i => if Nat.eqb i 7 then "alice" else "DELETED_USER") ids)
    : Error + list string in
  let col := run [OpCreate "alice" "doc123"] DocCollection.empty in
  createVerificationRequest _ getUser idsToUsernames (Some 7) "" col
  = (inr (CreateError "Missing credentials."), col) /\
  createVerificationRequest _ getUser idsToUsernames None "" col
  = (inl (UnauthenticatedError "Must be logged in!"), col).
Proof.
  intros getUser idsToUsernames col. split.
  - apply (submit_missing_credentials (option ObjectId) getUser idsToUsernames
             (Some 7) col).
  - apply (submit_missing_credentials (option ObjectId) getUser idsToUsernames
             None col).
Defined.

(** X15.  A logged-in caller whose resolved user name is non-empty and
    has no document, submitting non-empty credentials, gets the concept's
    success message with the new document; the status route then answers
    ["pending"] for that user name and the view route returns the new
    document to the caller. *)
Theorem submit_then_view (SessionDoc : Type)
    (getUser : SessionDoc -> Error + ObjectId)
    (idsToUsernames : list ObjectId -> Error + list string)
    (session anyone : SessionDoc) (col : Collection) (creds : string)
    (user : ObjectId) (u : string) (rest : list string) :
  getUser session = inr user ->
  idsToUsernames [user] = inr (u :: rest) ->
  u <> "" -> creds <> "" ->
  DocCollection.readOne (by_username u) col = None ->
  exists col1,
    createVerificationRequest SessionDoc getUser idsToUsernames session creds col
    = (inr (CreateOk (Verifying.mkCreated
                        "Verification request created successfully!"
                        (Some (newDoc col u creds)))), col1) /\
    getVerificationStatus SessionDoc anyone u col1
    = (inr (RespStatus "pending"), col1) /\
    viewRequests SessionDoc getUser idsToUsernames session col1
    = (inr (newDoc col u creds), col1).
Proof.
  unfold DocCollection.readOne. intros Hu Hn Hne Hc H.
  rewrite (submit_route_resolved SessionDoc getUser idsToUsernames session
             col creds user (u :: rest) Hu Hn).
  apply truthy_nonempty in Hc as Ht. rewrite Ht. simpl.
  unfold bind. rewrite (createVerificationRequest_free col u creds Hne Hc H).
  eexists. split; [reflexivity|].
  assert (H1 : find (by_username u)
                 (DocCollection.docs
                    (snd (DocCollection.createOne u creds pending col)))
               = Some (newDoc col u creds)).
  { simpl. apply (find_app_new col u creds H). }
  split.
  - apply (getVerificationStatus_found SessionDoc anyone _ u _ H1).
  - rewrite (view_route_resolved SessionDoc getUser idsToUsernames session
               _ user (u :: rest) Hu Hn). simpl.
    now apply getRequestByUser_found.
Qed.

(** X15 for alice, user 7, submitting ["doc123"] to the empty
    collection. *)
Lemma submit_then_view_witness :
  let getUser := fun s : option ObjectId =>
    match s with
    | Some user => inr user
    | None => inl (UnauthenticatedError "Must be logged in!")
    end in
  let idsToUsernames := fun ids : list ObjectId =>
    inr (map (fun i => if Nat.eqb i 7 then "alice" else "DELETED_USER") ids)
    : Error + list string in
  let col := DocCollection.empty in
  exists col1,
    createVerificationRequest _ getUser idsToUsernames (Some 7) "doc123" col
    = (inr (CreateOk (Verifying.mkCreated
                        "Verification request created successfully!"
                        (Some (newDoc col "alice" "doc123")))), col1) /\
    getVerificationStatus (option ObjectId) None "alice" col1
    = (inr (RespStatus "pending"), col1) /\
    viewRequests _ getUser idsToUsernames (Some 7) col1
    = (inr (newDoc col "alice" "doc123"), col1).
Proof.
  intros getUser idsToUsernames col.
  apply (submit_then_view (option ObjectId) getUser idsToUsernames (Some 7)
           None col "doc123" 7 "alice" []);
    [reflexivity | reflexivity | discriminate | discriminate | reflexivity].
Defined.

Lemma snd_bind_ret A B (m : M A) (f : A -> B) col :
  snd (bind m (fun a => ret (f a)) col) = snd (m col).
Proof. unfold bind, ret. now destruct (m col) as [[e|a] col']. Qed.

(** X16.  The submit route stores something only for a logged-in caller
    whose resolved user name is non-empty and has no document yet, and
    only with non-empty credentials; what it stores then is one pending
    document under that user name.  Every other call of it leaves the
    collection as it was. *)
Theorem submit_route_writes (SessionDoc : Type)
    (getUser : SessionDoc -> Error + ObjectId)
    (idsToUsernames : list ObjectId -> Error + list string)
    (session : SessionDoc) (creds : string) (col : Collection) :
  snd (createVerificationRequest SessionDoc getUser idsToUsernames session
         creds col) <> col ->
  exists user u rest,
    getUser session = inr user /\
    idsToUsernames [user] = inr (u :: rest) /\
    u <> "" /\ creds <> "" /\
    DocCollection.readOne (by_username u) col = None /\
    snd (createVerificationRequest SessionDoc getUser idsToUsernames session
           creds col)
    = snd (DocCollection.createOne u creds pending col).
Proof.
  intros Hw.
  destruct (getUser session) as [e|user] eqn:Hu.
  { exfalso. apply Hw. apply submit_route_unresolved. left. now exists e. }
  destruct (idsToUsernames [user]) as [e|names] eqn:Hn.
  { exfalso. apply Hw. apply submit_route_unresolved. right. now exists user, e. }
  rewrite (submit_route_resolved SessionDoc getUser idsToUsernames session
             col creds user names Hu Hn) in *.
  destruct (String.eqb_spec creds "") as [Hc|Hc].
  { subst creds. simpl in Hw. tauto. }
  apply truthy_nonempty in Hc as Ht. rewrite Ht in *. simpl negb in *.
  cbv iota in *.
  destruct names as [|u rest]; simpl nth_error in *; cbv iota in *;
    [simpl in Hw; tauto|].
  rewrite snd_bind_ret in *.
  destruct (exec_create col u creds) as [E | [Hnone E]]; simpl in E;
    [tauto|].
  exists user, u, rest. repeat split; try assumption.
  intros ->. rewrite createVerificationRequest_bad in Hw by auto.
  simpl in Hw. tauto.
Qed.

(** X16 for alice, user 7, submitting ["doc123"] next to bob's request. *)
Lemma submit_route_writes_witness :
  let getUser := fun s : option ObjectId =>
    match s with
    | Some user => inr user
    | None => inl (UnauthenticatedError "Must be logged in!")
    end in
  let idsToUsernames := fun ids : list ObjectId =>
    inr (map (fun i => if Nat.eqb i 7 then "alice" else "DELETED_USER") ids)
    : Error + list string in
  let col := run [OpCreate "bob" "doc456"] DocCollection.empty in
  exists user u rest,
    getUser (Some 7) = inr user /\
    idsToUsernames [user] = inr (u :: rest) /\
    u <> "" /\ "doc123" <> "" /\
    DocCollection.readOne (by_username u) col = None /\
    snd (createVerificationRequest _ getUser idsToUsernames (Some 7)
           "doc123" col)
    = snd (DocCollection.createOne u "doc123" pending col).
Proof.
  intros getUser idsToUsernames col.
  apply (submit_route_writes (option ObjectId) getUser idsToUsernames (Some 7)
           "doc123" col).
  simpl. intros E. discriminate E.
Defined.

(** X17.  The view route never writes, and a document it returns is a
    stored one whose user name is the first name the caller's session
    resolves to: no caller is shown the request of another user name. *)
Theorem view_route_reads (SessionDoc : Type)
    (getUser : SessionDoc -> Error + ObjectId)
    (idsToUsernames : list ObjectId -> Error + list string)
    (session : SessionDoc) (col col' : Collection)
    (r : Error + VerificationRequestDoc) :
  viewRequests SessionDoc getUser idsToUsernames session col = (r, col') ->
  col' = col /\
  forall d, r = inr d ->
    In d (DocCollection.docs col) /\
    exists user names,
      getUser session = inr user /\
      idsToUsernames [user] = inr names /\
      nth_error names 0 = Some (username d).
Proof.
  destruct (getUser session) as [e|user] eqn:Hu.
  { unfold viewRequests. unfold bind at 1, lift at 1. rewrite Hu.
    intros E. injection E as <- <-. split; [reflexivity | discriminate]. }
  destruct (idsToUsernames [user]) as [e|names] eqn:Hn.
  { unfold viewRequests. unfold bind at 1, lift at 1. rewrite Hu.
    unfold bind at 1, lift at 1. rewrite Hn.
    intros E. injection E as <- <-. split; [reflexivity | discriminate]. }
  rewrite (view_route_resolved SessionDoc getUser idsToUsernames session
             col user names Hu Hn).
  destruct (nth_error names 0) as [u|] eqn:Hnth.
  - destruct (find (by_username u) (DocCollection.docs col)) as [d0|] eqn:H.
    + rewrite (getRequestByUser_found col u d0 H). intros E.
      injection E as <- <-. split; [reflexivity|].
      intros d E. injection E as <-.
      apply find_username_some in H. destruct H as [Hin Hd].
      split; [assumption|]. exists user, names. now rewrite Hd.
    + rewrite (getRequestByUser_missing col u H). intros E.
      injection E as <- <-. split; [reflexivity | discriminate].
  - intros E. injection E as <- <-. split; [reflexivity | discriminate].
Qed.

(** X17 for alice, user 7, viewing her request next to bob's. *)
Lemma view_route_reads_witness :
  let getUser := fun s : option ObjectId =>
    match s with
    | Some user => inr user
    | None => inl (UnauthenticatedError "Must be logged in!")
    end in
  let idsToUsernames := fun ids : list ObjectId =>
    inr (map (fun i => if Nat.eqb i 7 then "alice" else "DELETED_USER") ids)
    : Error + list string in
  let col := run [OpCreate "bob" "doc456"; OpCreate "alice" "doc123"]
                 DocCollection.empty in
  col = col /\
  forall d,
    (inr (mkDoc 1 "alice" "doc123" pending) : Error + VerificationRequestDoc)
    = inr d ->
    In d (DocCollection.docs col) /\
    exists user names,
      getUser (Some 7) = inr user /\
      idsToUsernames [user] = inr names /\
      nth_error names 0 = Some (username d).
Proof.
  intros getUser idsToUsernames col.
  apply (view_route_reads (option ObjectId) getUser idsToUsernames (Some 7)
           col col (inr (mkDoc 1 "alice" "doc123" pending))).
  reflexivity.
Defined.

(** * Properties of the variant keyed by user identifier *)

Section ByIdEffects.

Import VerifyingById.

Variable toString : ObjectId -> string.
Variable col : Collection.

Lemma byid_find_app (f : Filter) l1 l2 :
  find f (l1 ++ l2)%list =
  match find f l1 with Some d => Some d | None => find f l2 end.
Proof.
  induction l1 as [|d l1 IH]; simpl; [reflexivity|]. now destruct (f d).
Qed.

Lemma byid_create_bad w :
  createVerificationRequest toString w "" col =
  (inl (BadValuesError "User ID and credentials must be non-empty!"), col).
Proof. reflexivity. Qed.

Lemma byid_create_taken w c d :
  c <> "" ->
  find (by_userId w) (docs col) = Some d ->
  createVerificationRequest toString w c col =
  (inl (NotAllowedError
          ("User with ID " ++ toString w ++ " already has a pending request!")),
   col).
Proof.
  intros Hc H. apply truthy_nonempty in Hc.
  unfold createVerificationRequest, assertValidRequest, bind at 1.
  rewrite Hc. simpl. unfold bind, readOne. now rewrite H.
Qed.

Lemma byid_create_free w c :
  c <> "" ->
  find (by_userId w) (docs col) = None ->
  createVerificationRequest toString w c col =
  (inr (mkCreated "Verification request created successfully!"
          (find (by_id (nextId col)) (docs col ++ [newDoc col w c])%list)),
   {| docs := (docs col ++ [newDoc col w c])%list; nextId := S (nextId col) |}).
Proof.
  intros Hc H. apply truthy_nonempty in Hc.
  unfold createVerificationRequest, assertValidRequest, bind at 1.
  rewrite Hc. simpl. unfold bind, readOne. now rewrite H.
Qed.

Lemma byid_find_fresh_id w c :
  Forall (fun d => _id d < nextId col) (docs col) ->
  find (by_id (nextId col)) (docs col ++ [newDoc col w c])%list = Some (newDoc col w c).
Proof.
  intros Hf. rewrite byid_find_app.
  destruct (find (by_id (nextId col)) (docs col)) as [d|] eqn:E.
  - apply find_some in E. destruct E as [Hin Hid].
    rewrite Forall_forall in Hf. specialize (Hf d Hin).
    apply Nat.eqb_eq in Hid. lia.
  - simpl. unfold by_id. simpl. now rewrite Nat.eqb_refl.
Qed.

Lemma byid_find_fresh_user w c :
  find (by_userId w) (docs col) = None ->
  find (by_userId w) (docs col ++ [newDoc col w c])%list = Some (newDoc col w c).
Proof.
  intros H. rewrite byid_find_app, H. simpl.
  unfold by_userId. simpl. now rewrite Nat.eqb_refl.
Qed.

Lemma byid_exec_create w c :
  exec toString (OpCreate w c) col = col \/
  (c <> "" /\ find (by_userId w) (docs col) = None /\
   exec toString (OpCreate w c) col =
   {| docs := (docs col ++ [newDoc col w c])%list; nextId := S (nextId col) |}).
Proof.
  simpl. destruct (String.eqb_spec c "") as [->|Hc]; [now left|].
  destruct (find (by_userId w) (docs col)) as [d|] eqn:H.
  - left. now rewrite (byid_create_taken w c d Hc H).
  - right. split; [assumption|]. split; [reflexivity|].
    now rewrite (byid_create_free w c Hc H).
Qed.

Lemma byid_updateFirst_no_match f patch l :
  find f l = None -> updateFirst f patch l = l.
Proof.
  induction l as [|d l IH]; simpl; [reflexivity|].
  destruct (f d); [discriminate | intros H; now rewrite IH].
Qed.

Lemma byid_exec_approve i :
  exec toString (OpApprove i) col =
  {| docs := updateFirst (by_id i) (set_status approved) (docs col);
     nextId := nextId col |}.
Proof.
  simpl. unfold approveRequest, bind, readOne.
  destruct (find (by_id i) (docs col)) eqn:H; simpl; [reflexivity|].
  rewrite byid_updateFirst_no_match by assumption. now destruct col.
Qed.

Lemma byid_exec_reject i reason :
  exec toString (OpReject i reason) col =
  {| docs := updateFirst (by_id i) (set_status rejected) (docs col);
     nextId := nextId col |}.
Proof.
  simpl. unfold rejectRequest, bind, readOne.
  destruct (find (by_id i) (docs col)) eqn:H; simpl; [reflexivity|].
  rewrite byid_updateFirst_no_match by assumption. now destruct col.
Qed.

Lemma byid_exec_delete i :
  exec toString (OpDelete i) col =
  {| docs := removeFirst (by_id i) (docs col); nextId := nextId col |}.
Proof. reflexivity. Qed.

Lemma byid_updateFirst_map A (g : VerificationRequestDoc -> A) f s l :
  (forall d, g (set_status s d) = g d) ->
  map g (updateFirst f (set_status s) l) = map g l.
Proof.
  intros Hg. induction l as [|d l IH]; simpl; [reflexivity|].
  destruct (f d); simpl; [now rewrite Hg | now rewrite IH].
Qed.

Lemma byid_removeFirst_In f d l : In d (removeFirst f l) -> In d l.
Proof.
  induction l as [|x l IH]; simpl; [tauto|]. destruct (f x); simpl; tauto.
Qed.

Lemma byid_removeFirst_NoDup A (g : VerificationRequestDoc -> A) f l :
  NoDup (map g l) -> NoDup (map g (removeFirst f l)).
Proof.
  induction l as [|x l IH]; simpl; [trivial|].
  intros H. inversion H as [|? ? Hnotin Hnd]; subst.
  destruct (f x); simpl; [assumption|].
  constructor; [| now apply IH].
  intros Hin. apply Hnotin. apply in_map_iff in Hin.
  destruct Hin as [d [Hd Hin]]. apply in_map_iff. exists d.
  split; [assumption | now apply byid_removeFirst_In in Hin].
Qed.

Lemma byid_find_user_none w l :
  find (by_userId w) l = None <-> ~ In w (map userId l).
Proof.
  induction l as [|d l IH]; simpl; [tauto|].
  unfold by_userId at 1. destruct (Nat.eqb_spec (userId d) w).
  - split; [discriminate | tauto].
  - rewrite IH. tauto.
Qed.

Lemma byid_Inv_exec op : Inv col -> Inv (exec toString op col).
Proof.
  intros [Hu Hi Hf]. destruct op as [w c | i | i reason | i].
  - destruct (byid_exec_create w c) as [-> | [_ [Hnone ->]]]; [now split|].
    split; simpl.
    + rewrite map_app. simpl. apply NoDup_snoc; [assumption|].
      now apply byid_find_user_none.
    + rewrite map_app. simpl. apply NoDup_snoc; [assumption|].
      intros Hin. apply in_map_iff in Hin. destruct Hin as [d [Hd Hin]].
      rewrite Forall_forall in Hf. specialize (Hf d Hin). lia.
    + apply Forall_app. split.
      * eapply Forall_impl; [|exact Hf]. simpl. intros; lia.
      * constructor; [simpl; lia | constructor].
  - rewrite byid_exec_approve. split; simpl.
    + now rewrite byid_updateFirst_map.
    + now rewrite byid_updateFirst_map.
    + apply Forall_forall. intros d Hd.
      assert (Hin : In (_id d) (map _id (docs col))).
      { rewrite <- (byid_updateFirst_map _ _id (by_id i) approved (docs col))
          by reflexivity. now apply in_map. }
      apply in_map_iff in Hin. destruct Hin as [d0 [<- Hin]].
      rewrite Forall_forall in Hf. now apply Hf.
  - rewrite byid_exec_reject. split; simpl.
    + now rewrite byid_updateFirst_map.
    + now rewrite byid_updateFirst_map.
    + apply Forall_forall. intros d Hd.
      assert (Hin : In (_id d) (map _id (docs col))).
      { rewrite <- (byid_updateFirst_map _ _id (by_id i) rejected (docs col))
          by reflexivity. now apply in_map. }
      apply in_map_iff in Hin. destruct Hin as [d0 [<- Hin]].
      rewrite Forall_forall in Hf. now apply Hf.
  - rewrite byid_exec_delete. split; simpl.
    + now apply byid_removeFirst_NoDup.
    + now apply byid_removeFirst_NoDup.
    + rewrite Forall_forall in *. intros d Hd. apply Hf.
      eapply byid_removeFirst_In; eassumption.
Qed.

End ByIdEffects.

Lemma byid_Inv_run toString ops :
  forall col, VerifyingById.Inv col ->
              VerifyingById.Inv (VerifyingById.run toString ops col).
Proof.
  induction ops as [|op ops IH]; simpl; intros col H; [assumption|].
  apply IH. now apply byid_Inv_exec.
Qed.

Lemma byid_Inv_empty : VerifyingById.Inv VerifyingById.empty.
Proof. split; simpl; constructor. Qed.

Section ByIdLists.

Import VerifyingById.

Lemma byid_find_updateFirst_same i s l d :
  find (by_id i) l = Some d ->
  find (by_id i) (updateFirst (by_id i) (set_status s) l)
  = Some (set_status s d).
Proof.
  induction l as [|x l IH]; simpl; [discriminate|].
  destruct (by_id i x) eqn:E; simpl.
  - intros H. injection H as <-.
    change (by_id i (set_status s x)) with (by_id i x). now rewrite E.
  - rewrite E. exact IH.
Qed.

Lemma byid_find_updateFirst_other i j s l :
  j <> i ->
  find (by_id j) (updateFirst (by_id i) (set_status s) l) = find (by_id j) l.
Proof.
  intros Hd. induction l as [|x l IH]; simpl; [reflexivity|].
  destruct (by_id i x) eqn:E; simpl.
  - change (by_id j (set_status s x)) with (by_id j x).
    destruct (by_id j x) eqn:E'; [|reflexivity].
    unfold by_id in E, E'. apply Nat.eqb_eq in E, E'. congruence.
  - now rewrite IH.
Qed.

Lemma byid_removeFirst_drops A (g : VerificationRequestDoc -> A) f l d x :
  NoDup (map g l) ->
  find f l = Some d ->
  In x (removeFirst f l) -> g x <> g d.
Proof.
  induction l as [|y l IH]; simpl; [discriminate|].
  intros Hnd. inversion Hnd as [|? ? Hnotin Hnd']; subst.
  destruct (f y); simpl.
  - intros E Hin. injection E as <-. intros Hg. apply Hnotin.
    rewrite <- Hg. now apply in_map.
  - intros E [<- | Hin].
    + intros Hg. apply Hnotin. rewrite Hg. apply in_map.
      now apply find_some in E.
    + now apply IH.
Qed.

Lemma byid_find_none_by (f : Filter) l :
  (forall x, In x l -> f x = false) -> find f l = None.
Proof.
  induction l as [|y l IH]; simpl; [reflexivity|].
  intros H. rewrite (H y) by now left. apply IH. intros x Hx. apply H. now right.
Qed.

End ByIdLists.

(** X18.  In the variant keyed by user identifier, an [ObjectId] being
    always truthy, createVerificationRequest throws BadValuesError exactly
    when the credentials are empty. *)
Theorem byid_bad_values_iff (toString : ObjectId -> string)
    (col : VerifyingById.Collection) (w : ObjectId) (c : string) :
  (exists msg,
     fst (VerifyingById.createVerificationRequest toString w c col)
     = inl (BadValuesError msg))
  <-> c = "".
Proof.
  destruct (String.eqb_spec c "") as [->|Hc].
  { rewrite byid_create_bad. simpl. split; [reflexivity|].
    intros _. eexists. reflexivity. }
  destruct (find (VerifyingById.by_userId w) (VerifyingById.docs col))
    as [d|] eqn:H.
  - rewrite (byid_create_taken toString col w c d Hc H). simpl.
    split; [intros [msg E]; discriminate | contradiction].
  - rewrite (byid_create_free toString col w c Hc H). simpl.
    split; [intros [msg E]; discriminate | contradiction].
Qed.

(** X19.  In the variant, starting from the empty collection, after any
    sequence of calls every user has at most one document and no two
    documents share an identifier. *)
Theorem byid_one_request_per_user (toString : ObjectId -> string)
    (ops : list VerifyingById.Op) (w i : ObjectId) :
  let col := VerifyingById.run toString ops VerifyingById.empty in
  length (filter (VerifyingById.by_userId w) (VerifyingById.docs col)) <= 1 /\
  length (filter (VerifyingById.by_id i) (VerifyingById.docs col)) <= 1.
Proof.
  intros col.
  destruct (byid_Inv_run toString ops VerifyingById.empty byid_Inv_empty)
    as [Hu Hi _].
  fold col in Hu, Hi.
  assert (G : forall (g : VerifyingById.VerificationRequestDoc -> nat) k l,
             NoDup (map g l) ->
             length (filter (fun d => Nat.eqb (g d) k) l) <= 1).
  { intros g k l. induction l as [|d l IH]; simpl; [lia|].
    intros H. inversion H as [|? ? Hnotin Hnd]; subst.
    destruct (Nat.eqb_spec (g d) k) as [E|E]; simpl; [|now apply IH].
    subst k. clear - Hnotin. induction l as [|x l IHl]; simpl in *; [lia|].
    destruct (Nat.eqb_spec (g x) (g d)) as [E|E]; [tauto|].
    apply IHl. tauto. }
  split; [apply (G VerifyingById.userId w _ Hu)
         | apply (G VerifyingById._id i _ Hi)].
Qed.

(** X20.  In the variant, on a collection built from the empty one, a
    user without a document who submits non-empty credentials gets back
    the success message with the document just stored, which is pending,
    and both getRequestById with the new identifier and getRequestByUserId
    with the user then return that document. *)
Theorem byid_create_success (toString : ObjectId -> string)
    (ops : list VerifyingById.Op) (w : ObjectId) (c : string) :
  let col := VerifyingById.run toString ops VerifyingById.empty in
  let d := VerifyingById.newDoc col w c in
  c <> "" ->
  find (VerifyingById.by_userId w) (VerifyingById.docs col) = None ->
  exists col1,
    VerifyingById.createVerificationRequest toString w c col =
    (inr (VerifyingById.mkCreated
            "Verification request created successfully!" (Some d)), col1) /\
    VerifyingById.getRequestById (VerifyingById._id d) col1 = (inr d, col1) /\
    VerifyingById.getRequestByUserId w col1 = (inr d, col1) /\
    VerifyingById.status d = pending.
Proof.
  intros col d Hc H.
  destruct (byid_Inv_run toString ops VerifyingById.empty byid_Inv_empty)
    as [_ _ Hf].
  fold col in Hf.
  rewrite (byid_create_free toString col w c Hc H).
  rewrite (byid_find_fresh_id col w c Hf).
  eexists. split; [reflexivity|]. split; [|split; [|reflexivity]].
  - unfold VerifyingById.getRequestById, VerifyingById.bind,
      VerifyingById.readOne. simpl.
    now rewrite (byid_find_fresh_id col w c Hf).
  - unfold VerifyingById.getRequestByUserId, VerifyingById.bind,
      VerifyingById.readOne. simpl.
    now rewrite (byid_find_fresh_user col w c H).
Qed.

(** X20 for user 7 after user 5's request has been created and deleted:
    the new document gets a fresh identifier. *)
Lemma byid_create_success_witness :
  let toString := fun i : ObjectId => "id" in
  let col := VerifyingById.run toString
               [VerifyingById.OpCreate 5 "doc123"; VerifyingById.OpDelete 0]
               VerifyingById.empty in
  let d := VerifyingById.mkDoc 1 7 "doc456" pending in
  exists col1,
    VerifyingById.createVerificationRequest toString 7 "doc456" col =
    (inr (VerifyingById.mkCreated
            "Verification request created successfully!" (Some d)), col1) /\
    VerifyingById.getRequestById 1 col1 = (inr d, col1) /\
    VerifyingById.getRequestByUserId 7 col1 = (inr d, col1) /\
    VerifyingById.status d = pending.
Proof.
  intros toString col d.
  apply (byid_create_success toString
           [VerifyingById.OpCreate 5 "doc123"; VerifyingById.OpDelete 0]
           7 "doc456"); [discriminate | reflexivity].
Defined.

(** X21.  In the variant, approveRequest and rejectRequest, the latter
    with any reason or none, on the identifier of a stored document, of
    any status, return their message; getRequestById then returns that
    document with the new status and its user and credentials unchanged,
    and the document found under any other identifier is as before.  The
    rejection message is the bare one with no or an empty reason, and
    ends in ["Reason: "] and the reason otherwise. *)
Theorem byid_settle (toString : ObjectId -> string)
    (col : VerifyingById.Collection) (i : ObjectId)
    (reason : option string)
    (d : VerifyingById.VerificationRequestDoc) :
  find (VerifyingById.by_id i) (VerifyingById.docs col) = Some d ->
  (exists col1,
     VerifyingById.approveRequest i col =
     (inr "Verification request approved successfully!", col1) /\
     VerifyingById.getRequestById i col1 =
     (inr (VerifyingById.set_status approved d), col1) /\
     forall j, j <> i ->
       find (VerifyingById.by_id j) (VerifyingById.docs col1) =
       find (VerifyingById.by_id j) (VerifyingById.docs col)) /\
  (exists msg col1,
     VerifyingById.rejectRequest i reason col = (inr msg, col1) /\
     match reason with
     | Some r =>
         contains msg r /\
         msg = (if String.eqb r ""
                then "Verification request rejected. "
                else "Verification request rejected. Reason: " ++ r)
     | None => msg = "Verification request rejected. "
     end /\
     VerifyingById.getRequestById i col1 =
     (inr (VerifyingById.set_status rejected d), col1) /\
     forall j, j <> i ->
       find (VerifyingById.by_id j) (VerifyingById.docs col1) =
       find (VerifyingById.by_id j) (VerifyingById.docs col)).
Proof.
  intros H. split.
  - unfold VerifyingById.approveRequest, VerifyingById.bind,
      VerifyingById.readOne. rewrite H. simpl.
    eexists. split; [reflexivity|]. split.
    + unfold VerifyingById.getRequestById, VerifyingById.bind,
        VerifyingById.readOne. simpl.
      now rewrite (byid_find_updateFirst_same i approved _ d H).
    + intros j Hj. simpl. now apply byid_find_updateFirst_other.
  - unfold VerifyingById.rejectRequest, VerifyingById.bind,
      VerifyingById.readOne. rewrite H. simpl.
    do 2 eexists. split; [reflexivity|]. split; [|split].
    + destruct reason as [r|]; [|reflexivity].
      simpl. unfold truthy. destruct (String.eqb_spec r "") as [-> | Hr]; simpl.
      * split; [apply contains_empty | reflexivity].
      * split; [|reflexivity].
        apply (contains_suffix "Verification request rejected. Reason: " r).
    + unfold VerifyingById.getRequestById, VerifyingById.bind,
        VerifyingById.readOne. simpl.
      now rewrite (byid_find_updateFirst_same i rejected _ d H).
    + intros j Hj. simpl. now apply byid_find_updateFirst_other.
Qed.

(** X21 for document 1, user 7's, next to user 5's document 0, rejected
    with the reason ["bad doc"]. *)
Lemma byid_settle_witness :
  let toString := fun i : ObjectId => "id" in
  let col := VerifyingById.run toString
               [VerifyingById.OpCreate 5 "doc123";
                VerifyingById.OpCreate 7 "doc456"]
               VerifyingById.empty in
  let d := VerifyingById.mkDoc 1 7 "doc456" pending in
  (exists col1,
     VerifyingById.approveRequest 1 col =
     (inr "Verification request approved successfully!", col1) /\
     VerifyingById.getRequestById 1 col1 =
     (inr (VerifyingById.set_status approved d), col1) /\
     forall j, j <> 1 ->
       find (VerifyingById.by_id j) (VerifyingById.docs col1) =
       find (VerifyingById.by_id j) (VerifyingById.docs col)) /\
  (exists msg col1,
     VerifyingById.rejectRequest 1 (Some "bad doc") col = (inr msg, col1) /\
     (contains msg "bad doc" /\
      msg = "Verification request rejected. Reason: bad doc") /\
     VerifyingById.getRequestById 1 col1 =
     (inr (VerifyingById.set_status rejected d), col1) /\
     forall j, j <> 1 ->
       find (VerifyingById.by_id j) (VerifyingById.docs col1) =
       find (VerifyingById.by_id j) (VerifyingById.docs col)).
Proof.
  intros toString col d.
  apply (byid_settle toString col 1 (Some "bad doc") d). reflexivity.
Defined.

(** X22.  In the variant, on a collection built from the empty one,
    deleteRequest on the identifier of a stored document removes it for
    good: getRequestById on the identifier and getRequestByUserId on the
    document's user then throw NotFoundError, and that user can submit a
    new request. *)
Theorem byid_delete_frees (toString : ObjectId -> string)
    (ops : list VerifyingById.Op) (i : ObjectId) (c : string)
    (d : VerifyingById.VerificationRequestDoc) :
  let col := VerifyingById.run toString ops VerifyingById.empty in
  let col1 := VerifyingById.exec toString (VerifyingById.OpDelete i) col in
  find (VerifyingById.by_id i) (VerifyingById.docs col) = Some d ->
  c <> "" ->
  VerifyingById.deleteRequest i col =
  (inr "Verification request deleted!", col1) /\
  VerifyingById.getRequestById i col1 =
  (inl (NotFoundError "Verification request not found!"), col1) /\
  VerifyingById.getRequestByUserId (VerifyingById.userId d) col1 =
  (inl (NotFoundError "Verification request not found!"), col1) /\
  exists col2,
    VerifyingById.createVerificationRequest toString
      (VerifyingById.userId d) c col1 =
    (inr (VerifyingById.mkCreated "Verification request created successfully!"
            (Some (VerifyingById.newDoc col1 (VerifyingById.userId d) c))),
     col2).
Proof.
  intros col col1 H Hc.
  pose proof (byid_Inv_run toString ops VerifyingById.empty byid_Inv_empty)
    as HI.
  fold col in HI.
  pose proof (byid_Inv_exec toString col (VerifyingById.OpDelete i) HI) as HI1.
  fold col1 in HI1.
  destruct HI as [Hu Hi _].
  assert (Hid : find (VerifyingById.by_id i) (VerifyingById.docs col1) = None).
  { apply byid_find_none_by. intros x Hx.
    pose proof (byid_removeFirst_drops _ VerifyingById._id
                  (VerifyingById.by_id i) _ d x Hi H Hx) as Hne.
    apply find_some in H. destruct H as [_ Hd]. apply Nat.eqb_eq in Hd.
    unfold VerifyingById.by_id. apply Nat.eqb_neq. congruence. }
  assert (Huser : find (VerifyingById.by_userId (VerifyingById.userId d))
                    (VerifyingById.docs col1) = None).
  { apply byid_find_none_by. intros x Hx.
    pose proof (byid_removeFirst_drops _ VerifyingById.userId
                  (VerifyingById.by_id i) _ d x Hu H Hx) as Hne.
    unfold VerifyingById.by_userId. now apply Nat.eqb_neq. }
  split; [reflexivity|].
  split.
  { unfold VerifyingById.getRequestById, VerifyingById.bind,
      VerifyingById.readOne. now rewrite Hid. }
  split.
  { unfold VerifyingById.getRequestByUserId, VerifyingById.bind,
      VerifyingById.readOne. now rewrite Huser. }
  rewrite (byid_create_free toString col1 _ c Hc Huser).
  destruct HI1 as [_ _ Hf1].
  rewrite (byid_find_fresh_id col1 _ c Hf1).
  eexists. reflexivity.
Qed.

(** X22 for user 7's approved document 1. *)
Lemma byid_delete_frees_witness :
  let toString := fun i : ObjectId => "id" in
  let col := VerifyingById.run toString
               [VerifyingById.OpCreate 5 "doc123";
                VerifyingById.OpCreate 7 "doc456";
                VerifyingById.OpApprove 1]
               VerifyingById.empty in
  let col1 := VerifyingById.exec toString (VerifyingById.OpDelete 1) col in
  VerifyingById.deleteRequest 1 col =
  (inr "Verification request deleted!", col1) /\
  VerifyingById.getRequestById 1 col1 =
  (inl (NotFoundError "Verification request not found!"), col1) /\
  VerifyingById.getRequestByUserId 7 col1 =
  (inl (NotFoundError "Verification request not found!"), col1) /\
  exists col2,
    VerifyingById.createVerificationRequest toString 7 "again" col1 =
    (inr (VerifyingById.mkCreated "Verification request created successfully!"
            (Some (VerifyingById.newDoc col1 7 "again"))),
     col2).
Proof.
  intros toString col col1.
  apply (byid_delete_frees toString
           [VerifyingById.OpCreate 5 "doc123";
            VerifyingById.OpCreate 7 "doc456";
            VerifyingById.OpApprove 1]
           1 "again" (VerifyingById.mkDoc 1 7 "doc456" approved));
    [reflexivity | discriminate].
Defined.
